(** * LazyDS4: the input-translation and drift-calibration engine

    A shallow embedding of [src/utils/input_translator.py] (class
    [InputTranslator]) and of the consumer-side reset done by
    [src/ui/main_window.py] ([_refresh_ui_after_calibration]).

    Modelling choices:
    - a raw HID report is a [list Z] of byte values; [hid_report[i]] is
      [nth i r 0] wherever the surrounding guard makes the index valid
      (translate requires 32 bytes), and [nth_error] where the source
      catches [IndexError];
    - Python floats are modelled by exact rationals [Q].  For
      [_normalize_stick] this is exact: over every clamped range pair
      (neg in 1..128, pos in 1..127) and every byte, the float and the
      rational evaluations give the same integer;
    - [time.time()] is an explicit parameter [now : Q] (seconds);
    - Qt signals are returned as a list of emitted events. *)

From Stdlib Require Import ZArith QArith Qround Qminmax Qabs Lqa Lia List Bool.
Import ListNotations.

Open Scope Z_scope.

(** ** Rational helpers *)

(** Python's [int()] on a float truncates toward zero. *)
Definition Qtrunc (q : Q) : Z := Z.quot (Qnum q) (Zpos (Qden q)).

Definition Qltb (x y : Q) : bool := if Qlt_le_dec x y then true else false.

(** ** Data model *)

Inductive axis := LX | LY | RX | RY.

Definition axes : list axis := [LX; LY; RX; RY].

Definition axis_eqb (a b : axis) : bool :=
  match a, b with
  | LX, LX | LY, LY | RX, RX | RY, RY => true
  | _, _ => false
  end.

(** One entry of [calibration_data]: [{'min', 'max', 'center'}]. *)
Record calib_entry := mk_calib { cmin : Z; cmax : Z; center : Z }.

(** [{'min': 255, 'max': 0, 'center': 128}] *)
Definition sentinel_entry : calib_entry := mk_calib 255 0 128.

Definition calib_table := axis -> calib_entry.

Definition sentinel_table : calib_table := fun _ => sentinel_entry.

(** [XInputReport] *)
Record xinput := mk_xinput {
  wButtons : Z; bLeftTrigger : Z; bRightTrigger : Z;
  sThumbLX : Z; sThumbLY : Z; sThumbRX : Z; sThumbRY : Z }.

Definition xinput_init : xinput := mk_xinput 0 0 0 0 0 0 0.

(** ** [_normalize_stick] *)

Definition normalize_stick (calib : calib_entry) (value : Z) (invert : bool) : Z :=
  let c := center calib in
  let neg_range := Z.max (c - cmin calib) 1 in
  let pos_range := Z.max (cmax calib - c) 1 in
  let scaled : Q :=
    if value >? c then ((inject_Z (value - c) / inject_Z pos_range) * 32767)%Q
    else if value <? c then ((inject_Z (value - c) / inject_Z neg_range) * 32767)%Q
    else 0%Q in
  let adaptive_deadzone : Q :=
    Qmax 4000 (2000 * (inject_Z (Z.abs (value - c)) / inject_Z (Z.max neg_range pos_range)))%Q in
  let scaled := if Qltb (Qabs scaled) adaptive_deadzone then 0%Q else scaled in
  let final_value := Qtrunc (Qmax (-32767) (Qmin 32767 scaled))%Q in
  if invert then - final_value else final_value.

(** The normalisation formula as the specification words it (section
    4.2): piecewise scaling by the clamped ranges, adaptive deadzone,
    clamp, truncation, negation. *)
Definition normalize_spec (calib : calib_entry) (v : Z) (invert : bool) : Z :=
  let negRange := Z.max (128 - cmin calib) 1 in
  let posRange := Z.max (cmax calib - 128) 1 in
  let d := v - 128 in
  let scaled : Q :=
    match Z.compare v 128 with
    | Gt => (inject_Z d / inject_Z posRange * 32767)%Q
    | Lt => (inject_Z d / inject_Z negRange * 32767)%Q
    | Eq => 0%Q
    end in
  let dz : Q := Qmax 4000 (2000 * inject_Z (Z.abs d) / inject_Z (Z.max negRange posRange))%Q in
  let kept : Q := if Qlt_le_dec (Qabs scaled) dz then 0%Q else scaled in
  let clamped : Q := Qmax (-32767) (Qmin 32767 kept)%Q in
  let out := Qtrunc clamped in
  if invert then - out else out.

(** ** A closed integer form of [_normalize_stick]

    The second term of the adaptive deadzone, [2000*|d|/max(neg,pos)],
    never reaches [|scaled| = 32767*|d|/range] since
    [range <= max(neg,pos)]; the deadzone therefore only zeroes the
    outputs whose magnitude is below 4000. *)

Definition norm_closed (calib : calib_entry) (value : Z) : Z :=
  let d := value - center calib in
  let N := Z.max (center calib - cmin calib) 1 in
  let P := Z.max (cmax calib - center calib) 1 in
  if 0 <? d then (if 32767 * d <? 4000 * P then 0 else Z.min 32767 (32767 * d / P))
  else if d <? 0 then
    (if 32767 * (- d) <? 4000 * N then 0 else - Z.min 32767 (32767 * (- d) / N))
  else 0.

(** ** Drift detection state *)

Inductive severity := SevNone | Mild | Moderate | Severe.

(** The dict emitted by [drift_detected]. *)
Record drift_result := mk_drift_result {
  has_drift : bool; drift_axes : list axis; drift_severity : severity }.

(** The drift fields of [InputTranslator]. [drift_detected_axes] is a
    Python set: a duplicate-free list. *)
Record drift_state := mk_drift {
  drift_samples : axis -> list Z;
  drift_sample_count : Z;
  drift_detected_axes : list axis;
  last_drift_check : Q;
  drift_check_performed : bool }.

Definition no_samples : axis -> list Z := fun _ => [].

Definition drift_init : drift_state := mk_drift no_samples 0 [] 0 false.

(** [set.add] *)
Definition set_add (s : list axis) (a : axis) : list axis :=
  if existsb (axis_eqb a) s then s else s ++ [a].

Definition list_sum (l : list Z) : Z := fold_left Z.add l 0.

(** Python [min]/[max] of a non-empty list. *)
Definition list_min (l : list Z) : Z :=
  match l with [] => 0 | x :: r => fold_left Z.min r x end.
Definition list_max (l : list Z) : Z :=
  match l with [] => 0 | x :: r => fold_left Z.max r x end.

Definition count_if (p : Z -> bool) (l : list Z) : Z :=
  Z.of_nat (length (filter p l)).

(** The per-axis test of [_analyze_drift_samples]; [false] for an axis
    skipped by [continue]. *)
Definition axis_has_drift (samples : list Z) : bool :=
  if (length samples <? 10)%nat then false else
  let n := Z.of_nat (length samples) in
  let avg_value : Q := (inject_Z (list_sum samples) / inject_Z n)%Q in
  let min_value := list_min samples in
  let max_value := list_max samples in
  let range_value := max_value - min_value in
  let expected_center := 128 in
  let center_deviation := Qabs (avg_value - inject_Z expected_center) in
  let is_consistently_off := Qltb 8 center_deviation in
  let is_stable := range_value <? 6 in
  let samples_above_center := count_if (fun s => expected_center <? s) samples in
  let samples_below_center := count_if (fun s => s <? expected_center) samples in
  let is_consistent_direction :=
    Qltb (inject_Z n * (8 # 10)) (inject_Z (Z.max samples_above_center samples_below_center)) in
  is_consistently_off && (is_stable || is_consistent_direction).

(** [_calculate_drift_severity] *)
Definition calculate_drift_severity (detected : list axis) : severity :=
  match length detected with
  | O => SevNone
  | 1%nat => Mild
  | 2%nat => Moderate
  | _ => Severe
  end.

(** [_analyze_drift_samples]: the loop over the four axes in dict order,
    the emitted result, then the buffers and the counter cleared. *)
Definition analyze_drift_samples (d : drift_state) : drift_state * drift_result :=
  let flagged := filter (fun a => axis_has_drift (drift_samples d a)) axes in
  let detected := fold_left set_add flagged (drift_detected_axes d) in
  let has := (0 <? length flagged)%nat in
  let info := mk_drift_result has flagged
                (if has then calculate_drift_severity detected else SevNone) in
  (mk_drift no_samples 0 detected (last_drift_check d) (drift_check_performed d), info).

(** [hid_report[i]] at an index the caller's length guard makes valid. *)
Definition byte_at (r : list Z) (i : nat) : Z := nth i r 0.

(** [_check_for_drift] at wall-clock time [now]. *)
Definition check_for_drift (d : drift_state) (now : Q) (r : list Z)
  : drift_state * option drift_result :=
  if (length r <? 5)%nat then (d, None) else
  if Qltb (now - last_drift_check d) (1 # 10) then (d, None) else
  let d := mk_drift (drift_samples d) (drift_sample_count d) (drift_detected_axes d)
                    now (drift_check_performed d) in
  let current_values (a : axis) : Z :=
    match a with LX => byte_at r 1 | LY => byte_at r 2 | RX => byte_at r 3 | RY => byte_at r 4 end in
  let buttons_pressed := negb (byte_at r 5 =? 0) || negb (byte_at r 6 =? 0) in
  let triggers_pressed := (10 <? byte_at r 8) || (10 <? byte_at r 9) in
  if buttons_pressed || triggers_pressed then
    (mk_drift no_samples 0 (drift_detected_axes d) (last_drift_check d)
              (drift_check_performed d), None)
  else
    let samples a := drift_samples d a ++ [current_values a] in
    let count := drift_sample_count d + 1 in
    let d := mk_drift samples count (drift_detected_axes d) (last_drift_check d)
                      (drift_check_performed d) in
    if 30 <=? count then
      let (d, info) := analyze_drift_samples d in
      (mk_drift (drift_samples d) (drift_sample_count d) (drift_detected_axes d)
                (last_drift_check d) true, Some info)
    else (d, None).

(** The reset done by the consumer after a calibration
    ([MainWindow._refresh_ui_after_calibration]). *)
Definition consumer_drift_reset (d : drift_state) : drift_state :=
  mk_drift no_samples 0 [] (last_drift_check d) false.

(** ** Battery *)

(** The body of the [try] block of [_extract_battery_info]; [None] when
    an [IndexError] is raised. *)
Definition battery_try (r : list Z) : option (Z * bool) :=
  let primary :=
    if (31 <=? length r)%nat then
      match nth_error r 30 with
      | None => None
      | Some battery_byte =>
          if negb (battery_byte =? 0) then
            let is_charging := negb (Z.land battery_byte 16 =? 0) in
            let level_raw := Z.land battery_byte 15 in
            let level_percent :=
              if level_raw <=? 10 then Z.max 0 (Z.min 100 (level_raw * 10))
              else Z.max 0 (Z.min 100 level_raw) in
            Some (Some (level_percent, is_charging))
          else Some None
      end
    else Some None in
  match primary with
  | None => None
  | Some (Some res) => Some res
  | Some None =>
      if (13 <=? length r)%nat then
        match nth_error r 12 with
        | None => None
        | Some battery_byte =>
            if negb (battery_byte =? 0) then Some (Z.max 0 (Z.min 100 battery_byte), false)
            else Some (50, false)
        end
      else Some (50, false)
  end.

(** [_extract_battery_info]: the status emitted, [(0, False)] from the
    [except] branch. *)
Definition extract_battery_info (r : list Z) : Z * bool :=
  match battery_try r with Some res => res | None => (0, false) end.


(** ** The translator *)

(** Qt signals emitted during a call.  A signal carries a snapshot of
    the emitted value. *)
Inductive signal :=
  | SigBattery (level : Z) (is_charging : bool)
  | SigCalibrationStarted
  | SigCalibrationFinished (t : calib_table)
  | SigCalibrationUpdated (t : calib_table)
  | SigJoystick (lx ly rx ry : Z)
  | SigDrift (info : drift_result).

(** The fields of [InputTranslator] (the unused [deadzone] dict apart). *)
Record translator := mk_translator {
  xinput_report : xinput;
  last_battery_check : Q;
  is_calibrating : bool;
  calibration_data : calib_table;
  drift_detection_enabled : bool;
  drift : drift_state }.

(** [InputTranslator.__init__] *)
Definition translator_init : translator :=
  mk_translator xinput_init 0 false sentinel_table true drift_init.

Definition set_drift (s : translator) (d : drift_state) : translator :=
  mk_translator (xinput_report s) (last_battery_check s) (is_calibrating s)
                (calibration_data s) (drift_detection_enabled s) d.

Definition set_calibration (s : translator) (t : calib_table) : translator :=
  mk_translator (xinput_report s) (last_battery_check s) (is_calibrating s)
                t (drift_detection_enabled s) (drift s).

Definition set_calibrating (s : translator) (b : bool) : translator :=
  mk_translator (xinput_report s) (last_battery_check s) b
                (calibration_data s) (drift_detection_enabled s) (drift s).

(** [start_calibration] (the settling [time.sleep(0.5)] has no effect on
    the state). *)
Definition start_calibration (s : translator) : translator * list signal :=
  (set_calibration (set_calibrating s true) sentinel_table, [SigCalibrationStarted]).

(** [stop_calibration] *)
Definition stop_calibration (s : translator) : translator * list signal :=
  (set_calibrating s false, [SigCalibrationFinished (calibration_data s)]).

(** The four [min]/[max] updates of [calibrate]. *)
Definition calib_update (t : calib_table) (lx ly rx ry : Z) : calib_table :=
  fun a =>
    let v := match a with LX => lx | LY => ly | RX => rx | RY => ry end in
    mk_calib (Z.min (cmin (t a)) v) (Z.max (cmax (t a)) v) (center (t a)).

(** [calibrate] *)
Definition calibrate (s : translator) (now : Q) (r : list Z) : translator * list signal :=
  if (length r <? 5)%nat then (s, []) else
  let lx := byte_at r 1 in let ly := byte_at r 2 in
  let rx := byte_at r 3 in let ry := byte_at r 4 in
  let t := calib_update (calibration_data s) lx ly rx ry in
  let s := set_calibration s t in
  let sigs := [SigCalibrationUpdated t; SigJoystick lx ly rx ry] in
  if negb (is_calibrating s) then
    let (d, info) := check_for_drift (drift s) now r in
    (set_drift s d, sigs ++ match info with Some i => [SigDrift i] | None => [] end)
  else (s, sigs).

(** [w |= k] under a condition. *)
Definition set_flag (c : bool) (k w : Z) : Z := if c then Z.lor w k else w.

(** Truthiness of [b & mask]. *)
Definition bit_set (b mask : Z) : bool := negb (Z.land b mask =? 0).

(** The [wButtons] computed by [translate] from report bytes 5 and 6. *)
Definition decode_buttons (buttons misc_buttons : Z) : Z :=
  let dpad := Z.land buttons 15 in
  let w := 0 in
  let w := set_flag ((dpad =? 0) || (dpad =? 1) || (dpad =? 7)) 1 w in   (* DPAD_UP *)
  let w := set_flag ((dpad =? 1) || (dpad =? 2) || (dpad =? 3)) 8 w in   (* DPAD_RIGHT *)
  let w := set_flag ((dpad =? 3) || (dpad =? 4) || (dpad =? 5)) 2 w in   (* DPAD_DOWN *)
  let w := set_flag ((dpad =? 5) || (dpad =? 6) || (dpad =? 7)) 4 w in   (* DPAD_LEFT *)
  let w := set_flag (bit_set buttons 16) 16384 w in   (* X (Square) *)
  let w := set_flag (bit_set buttons 32) 4096 w in    (* A (Cross) *)
  let w := set_flag (bit_set buttons 64) 8192 w in    (* B (Circle) *)
  let w := set_flag (bit_set buttons 128) 32768 w in  (* Y (Triangle) *)
  let w := set_flag (bit_set misc_buttons 1) 256 w in (* LEFT_SHOULDER *)
  let w := set_flag (bit_set misc_buttons 2) 512 w in (* RIGHT_SHOULDER *)
  let w := set_flag (bit_set misc_buttons 16) 32 w in (* BACK (Share) *)
  let w := set_flag (bit_set misc_buttons 32) 16 w in (* START (Options) *)
  let w := set_flag (bit_set misc_buttons 64) 64 w in (* LEFT_THUMB *)
  let w := set_flag (bit_set misc_buttons 128) 128 w in (* RIGHT_THUMB *)
  w.

(** [translate] at wall-clock time [now]: the new state, the returned
    report ([None] for Python's [None]) and the signals emitted. *)
Definition translate (s : translator) (now : Q) (r : list Z)
  : translator * option xinput * list signal :=
  if (length r <? 32)%nat then (s, Some (xinput_report s), []) else
  if is_calibrating s then
    let (s', sigs) := calibrate s now r in (s', None, sigs)
  else
    let '(lbc, battery_sigs) :=
      if Qltb 2 (now - last_battery_check s)
      then (now, let '(lvl, chg) := extract_battery_info r in [SigBattery lvl chg])
      else (last_battery_check s, []) in
    let calib := calibration_data s in
    let x := mk_xinput (decode_buttons (byte_at r 5) (byte_at r 6))
                       (byte_at r 8) (byte_at r 9)
                       (normalize_stick (calib LX) (byte_at r 1) false)
                       (normalize_stick (calib LY) (byte_at r 2) true)
                       (normalize_stick (calib RX) (byte_at r 3) false)
                       (normalize_stick (calib RY) (byte_at r 4) true) in
    let s := mk_translator x lbc false calib (drift_detection_enabled s) (drift s) in
    if drift_detection_enabled s && negb (drift_check_performed (drift s)) then
      let (d, info) := check_for_drift (drift s) now r in
      (set_drift s d, Some x,
       battery_sigs ++ match info with Some i => [SigDrift i] | None => [] end)
    else (s, Some x, battery_sigs).

(** The calls the application makes on a translator. *)
Inductive event :=
  | EvTranslate (now : Q) (r : list Z)
  | EvStartCalibration
  | EvStopCalibration
  | EvConsumerDriftReset.

Definition step (s : translator) (e : event) : translator :=
  match e with
  | EvTranslate now r => fst (fst (translate s now r))
  | EvStartCalibration => fst (start_calibration s)
  | EvStopCalibration => fst (stop_calibration s)
  | EvConsumerDriftReset => set_drift s (consumer_drift_reset (drift s))
  end.

Definition run (s : translator) (es : list event) : translator := fold_left step es s.

Inductive reachable : translator -> Prop :=
  | reach_init : reachable translator_init
  | reach_step s e : reachable s -> reachable (step s e).


(** ** Specification-side definitions *)

(** The drift test of section 4.4 of the specification, for one axis:
    at least 10 samples, [|mean - 128| > 8], and either a range below 6
    or more than 80% of the samples strictly on one side of 128. *)
Definition drift_flag_spec (l : list Z) : bool :=
  let n := Z.of_nat (length l) in
  let mean : Q := (inject_Z (list_sum l) / inject_Z n)%Q in
  let above := Z.of_nat (length (filter (fun v => 128 <? v) l)) in
  let below := Z.of_nat (length (filter (fun v => v <? 128) l)) in
  (10 <=? n) && Qltb 8 (Qabs (mean - 128))
  && ((list_max l - list_min l <? 6) || (4 * n <? 5 * above) || (4 * n <? 5 * below)).

(** Severity by the number of axes flagged in the pass. *)
Definition severity_of_count (k : nat) : severity :=
  match k with O => SevNone | 1%nat => Mild | 2%nat => Moderate | _ => Severe end.

(** The [DriftResult] of one analysis pass over the given buffers. *)
Definition drift_result_spec (bufs : axis -> list Z) : drift_result :=
  let flagged := filter (fun a => drift_flag_spec (bufs a)) axes in
  mk_drift_result (negb (length flagged =? 0)%nat) flagged (severity_of_count (length flagged)).

(** A 64-byte DS4 USB input report with the given axis, button, trigger
    and battery bytes (all other bytes zero). *)
Definition report (lx ly rx ry b5 b6 l2 r2 b12 b30 : Z) : list Z :=
  [1; lx; ly; rx; ry; b5; b6; 0; l2; r2] ++ repeat 0 2%nat ++ [b12]
  ++ repeat 0 17%nat ++ [b30] ++ repeat 0 33%nat.

(** The axis byte read from a report. *)
Definition axis_byte (r : list Z) (a : axis) : Z :=
  match a with LX => byte_at r 1 | LY => byte_at r 2 | RX => byte_at r 3 | RY => byte_at r 4 end.

(** Thirty samples of mean 140 and range 4 (138..142). *)
Definition lx_drift_samples : list Z :=
  concat (repeat [138; 139; 140; 141; 142] 6%nat).

Definition centered_samples : list Z := repeat 128 30%nat.

(** The XInput D-pad button bits. *)
Definition DPAD_UP : Z := 1.
Definition DPAD_DOWN : Z := 2.
Definition DPAD_LEFT : Z := 4.
Definition DPAD_RIGHT : Z := 8.

(** The D-pad decode table of the specification (sections 4.1 and 8). *)
Definition dpad_flags_spec (code : Z) : Z :=
  if code =? 0 then DPAD_UP
  else if code =? 1 then Z.lor DPAD_UP DPAD_RIGHT
  else if code =? 2 then DPAD_RIGHT
  else if code =? 3 then Z.lor DPAD_RIGHT DPAD_DOWN
  else if code =? 4 then DPAD_DOWN
  else if code =? 5 then Z.lor DPAD_DOWN DPAD_LEFT
  else if code =? 6 then DPAD_LEFT
  else if code =? 7 then Z.lor DPAD_LEFT DPAD_UP
  else 0.

(** The battery status described in section 4.5 of the specification,
    from report bytes 30 and 12. *)
Definition battery_spec (b30 b12 : Z) : Z * bool :=
  if negb (b30 =? 0) then
    let nibble := b30 mod 16 in
    ((if nibble <=? 10 then Z.min 100 (Z.max 0 (nibble * 10)) else Z.min 100 nibble),
     Z.testbit b30 4)
  else if negb (b12 =? 0) then (Z.min 100 (Z.max 0 b12), false)
  else (50, false).

(** The reports accepted while calibrating: [translate] on each
    (time, report) pair after [start_calibration]. *)
Definition calibration_session (s : translator) (evs : list (Q * list Z)) : translator :=
  fold_left (fun s e => fst (fst (translate s (fst e) (snd e)))) evs
            (fst (start_calibration s)).

(** The bytes of axis [a] in the reports that reach [calibrate]. *)
Definition accepted_samples (evs : list (Q * list Z)) (a : axis) : list Z :=
  map (fun e => axis_byte (snd e) a) (filter (fun e => (32 <=? length (snd e))%nat) evs).

(** A full report whose left-stick X byte is [lx], the other sticks
    centered, byte 5 and byte 6 zero and triggers released: the only
    reports the drift sampler records. *)
Definition lx_report (lx : Z) : list Z := report lx 128 128 128 0 0 0 0 0 0.

(** One [translate] call per sample, one second apart from time [t]. *)
Fixpoint sample_ticks (t : Z) (vals : list Z) : list event :=
  match vals with
  | [] => []
  | v :: vs => EvTranslate (inject_Z t) (lx_report v) :: sample_ticks (t + 1) vs
  end.


Definition calibrating_state : translator := fst (start_calibration translator_init).

Definition cex_calibration_session : translator :=
  calibration_session translator_init [(1%Q, report 200 128 128 128 8 0 0 0 0 0)].

(** A translator that has recorded one idle sample on each axis. *)
Definition one_sample_state : translator :=
  set_drift translator_init (mk_drift (fun _ => [128]) 1 [] 0 false).

(** A DS4 report at rest: sticks centered, D-pad nibble 8 (released),
    no face, shoulder or special button, triggers at 0. *)
Definition released_report : list Z := report 128 128 128 128 8 0 0 0 0 0.

(** ** The virtual gamepad ([src/core/vigem_controller.py])

    The state of the virtual Xbox 360 pad as pushed by [gamepad.update()]:
    the buttons pressed since the last [gamepad.reset()], in press order,
    the two joystick positions and the two triggers.  The [vgamepad]
    calls are taken not to raise. *)

Inductive xusb_button :=
  | XUSB_GAMEPAD_A | XUSB_GAMEPAD_B | XUSB_GAMEPAD_X | XUSB_GAMEPAD_Y
  | XUSB_GAMEPAD_DPAD_UP | XUSB_GAMEPAD_DPAD_DOWN
  | XUSB_GAMEPAD_DPAD_LEFT | XUSB_GAMEPAD_DPAD_RIGHT
  | XUSB_GAMEPAD_LEFT_SHOULDER | XUSB_GAMEPAD_RIGHT_SHOULDER
  | XUSB_GAMEPAD_START | XUSB_GAMEPAD_BACK
  | XUSB_GAMEPAD_LEFT_THUMB | XUSB_GAMEPAD_RIGHT_THUMB.

Record vpad := mk_vpad {
  pressed : list xusb_button;
  left_joystick : Z * Z; right_joystick : Z * Z;
  left_trigger : Z; right_trigger : Z }.

(** [if report.wButtons & mask: gamepad.press_button(b)] *)
Definition press_if (c : bool) (b : xusb_button) (l : list xusb_button) : list xusb_button :=
  if c then l ++ [b] else l.

(** [ViGEmController.send_report]; [connected] is
    [self.gamepad and self.vg]. *)
Definition send_report (connected : bool) (p : vpad) (report : xinput) : vpad :=
  if negb connected then p else
  let w := wButtons report in
  let l := [] in                                              (* gamepad.reset() *)
  let l := press_if (bit_set w 4096) XUSB_GAMEPAD_A l in      (* 0x1000 *)
  let l := press_if (bit_set w 8192) XUSB_GAMEPAD_B l in      (* 0x2000 *)
  let l := press_if (bit_set w 16384) XUSB_GAMEPAD_X l in     (* 0x4000 *)
  let l := press_if (bit_set w 32768) XUSB_GAMEPAD_Y l in     (* 0x8000 *)
  let l := press_if (bit_set w 1) XUSB_GAMEPAD_DPAD_UP l in
  let l := press_if (bit_set w 2) XUSB_GAMEPAD_DPAD_DOWN l in
  let l := press_if (bit_set w 4) XUSB_GAMEPAD_DPAD_LEFT l in
  let l := press_if (bit_set w 8) XUSB_GAMEPAD_DPAD_RIGHT l in
  let l := press_if (bit_set w 256) XUSB_GAMEPAD_LEFT_SHOULDER l in   (* 0x0100 *)
  let l := press_if (bit_set w 512) XUSB_GAMEPAD_RIGHT_SHOULDER l in  (* 0x0200 *)
  let l := press_if (bit_set w 16) XUSB_GAMEPAD_START l in    (* 0x0010 *)
  let l := press_if (bit_set w 32) XUSB_GAMEPAD_BACK l in     (* 0x0020 *)
  let l := press_if (bit_set w 64) XUSB_GAMEPAD_LEFT_THUMB l in   (* 0x0040 *)
  let l := press_if (bit_set w 128) XUSB_GAMEPAD_RIGHT_THUMB l in (* 0x0080 *)
  mk_vpad l (sThumbLX report, sThumbLY report) (sThumbRX report, sThumbRY report)
          (bLeftTrigger report) (bRightTrigger report).

(** [LazyDS4._process_input] after [read_input] returned [hid_report]
    (no data, [None], is the empty list): the new translator, the new
    virtual pad and the report emitted on [input_received], if any. *)
Definition process_input (connected : bool) (s : translator) (p : vpad) (now : Q)
    (hid_report : list Z) : translator * vpad * option xinput :=
  match hid_report with
  | [] => (s, p, None)
  | _ =>
      let '(s', out, _) := translate s now hid_report in
      match out with
      | Some x => (s', send_report connected p x, Some x)
      | None => (s', p, None)
      end
  end.

(** The XUSB buttons a DS4 report should press, in [send_report]'s
    order: Cross, Circle, Square, Triangle (byte 5 bits 5, 6, 4, 7); the
    D-pad directions of the compass code (byte 5 low nibble); L1, R1,
    Options, Share, L3, R3 (byte 6 bits 0, 1, 5, 4, 6, 7). *)
Definition ds4_pressed (b5 b6 : Z) : list xusb_button :=
  let code := Z.land b5 15 in
  (if bit_set b5 32 then [XUSB_GAMEPAD_A] else [])
  ++ (if bit_set b5 64 then [XUSB_GAMEPAD_B] else [])
  ++ (if bit_set b5 16 then [XUSB_GAMEPAD_X] else [])
  ++ (if bit_set b5 128 then [XUSB_GAMEPAD_Y] else [])
  ++ (if (code =? 0) || (code =? 1) || (code =? 7) then [XUSB_GAMEPAD_DPAD_UP] else [])
  ++ (if (code =? 3) || (code =? 4) || (code =? 5) then [XUSB_GAMEPAD_DPAD_DOWN] else [])
  ++ (if (code =? 5) || (code =? 6) || (code =? 7) then [XUSB_GAMEPAD_DPAD_LEFT] else [])
  ++ (if (code =? 1) || (code =? 2) || (code =? 3) then [XUSB_GAMEPAD_DPAD_RIGHT] else [])
  ++ (if bit_set b6 1 then [XUSB_GAMEPAD_LEFT_SHOULDER] else [])
  ++ (if bit_set b6 2 then [XUSB_GAMEPAD_RIGHT_SHOULDER] else [])
  ++ (if bit_set b6 32 then [XUSB_GAMEPAD_START] else [])
  ++ (if bit_set b6 16 then [XUSB_GAMEPAD_BACK] else [])
  ++ (if bit_set b6 64 then [XUSB_GAMEPAD_LEFT_THUMB] else [])
  ++ (if bit_set b6 128 then [XUSB_GAMEPAD_RIGHT_THUMB] else []).

Definition vpad_init : vpad := mk_vpad [] (0, 0) (0, 0) 0 0.

(** The drift buffers are in step with their counter. *)
Definition buffers_ok (d : drift_state) : Prop :=
  (forall a, length (drift_samples d a) = Z.to_nat (drift_sample_count d))
  /\ 0 <= drift_sample_count d < 30.

(** Whether an event list contains no consumer-side drift reset. *)
Definition no_reset (es : list event) : bool :=
  forallb (fun e => match e with EvConsumerDriftReset => false | _ => true end) es.


(** Whether a signal is a battery status. *)
Definition is_battery_signal (g : signal) : bool :=
  match g with SigBattery _ _ => true | _ => false end.

(** ** Rational arithmetic lemmas *)

Lemma Qmax_cases (x y : Q) :
  ((y <= x)%Q /\ Qmax x y = x) \/ ((x < y)%Q /\ Qmax x y = y).
Proof.
  unfold Qmax, GenericMinMax.gmax.
  destruct (Qcompare_spec x y) as [h|h|h].
  - left; split; [rewrite h; apply Qle_refl | reflexivity].
  - right; auto.
  - left; split; [apply Qlt_le_weak; exact h | reflexivity].
Qed.

Lemma Qmin_cases (x y : Q) :
  ((x <= y)%Q /\ Qmin x y = x) \/ ((y < x)%Q /\ Qmin x y = y).
Proof.
  unfold Qmin, GenericMinMax.gmin.
  destruct (Qcompare_spec x y) as [h|h|h].
  - left; split; [rewrite h; apply Qle_refl | reflexivity].
  - left; split; [apply Qlt_le_weak; exact h | reflexivity].
  - right; auto.
Qed.

Lemma Qtrunc_floor (q : Q) : (0 <= q)%Q -> Qtrunc q = Qfloor q.
Proof.
  destruct q as [n d]; unfold Qle; simpl; intro h.
  apply Z.quot_div_nonneg; lia.
Qed.

Lemma Qtrunc_ceiling (q : Q) : (q <= 0)%Q -> Qtrunc q = Qceiling q.
Proof.
  destruct q as [n d]; unfold Qle, Qceiling, Qtrunc; simpl; intro h.
  rewrite <- (Z.opp_involutive n) at 1.
  rewrite (Z.quot_opp_l (- n)) by lia.
  rewrite Z.quot_div_nonneg by lia. reflexivity.
Qed.

Lemma Qtrunc_le (q1 q2 : Q) : (q1 <= q2)%Q -> Qtrunc q1 <= Qtrunc q2.
Proof.
  intro h.
  destruct (Qlt_le_dec q1 0) as [h1|h1]; destruct (Qlt_le_dec q2 0) as [h2|h2].
  - rewrite !Qtrunc_ceiling by (apply Qlt_le_weak; assumption).
    apply Qceiling_resp_le; exact h.
  - rewrite Qtrunc_ceiling by (apply Qlt_le_weak; assumption).
    rewrite Qtrunc_floor by assumption.
    transitivity (Qceiling 0); [apply Qceiling_resp_le; apply Qlt_le_weak; exact h1|].
    change (Qceiling 0) with (Qfloor 0). apply Qfloor_resp_le; exact h2.
  - exfalso. apply (Qlt_not_le q2 0 h2). apply Qle_trans with q1; assumption.
  - rewrite !Qtrunc_floor by assumption. apply Qfloor_resp_le; exact h.
Qed.

Lemma Qtrunc_compat (q1 q2 : Q) : (q1 == q2)%Q -> Qtrunc q1 = Qtrunc q2.
Proof.
  intro h. apply Z.le_antisymm; apply Qtrunc_le; rewrite h; apply Qle_refl.
Qed.

Lemma Qtrunc_Z (z : Z) : Qtrunc (inject_Z z) = z.
Proof. unfold Qtrunc; simpl. apply Z.quot_1_r. Qed.

(** A quotient of integers with a positive denominator, in normal form. *)
Lemma Qfrac_make (a b : Z) : 0 < b -> (inject_Z a / inject_Z b == Qmake a (Z.to_pos b))%Q.
Proof.
  intro hb. destruct b as [|p|p]; try lia.
  unfold Qdiv, Qinv, inject_Z, Qeq; simpl. lia.
Qed.

Lemma scaled_make (d P : Z) : 0 < P ->
  (inject_Z d / inject_Z P * 32767 == Qmake (d * 32767) (Z.to_pos P))%Q.
Proof.
  intro hP. rewrite Qfrac_make by exact hP.
  unfold Qeq, Qmult; simpl. rewrite Pos.mul_1_r. lia.
Qed.

Lemma deadzone_make (a M : Z) : 0 < M ->
  (2000 * (inject_Z a / inject_Z M) == Qmake (2000 * a) (Z.to_pos M))%Q.
Proof.
  intro hM. rewrite Qfrac_make by exact hM.
  unfold Qeq, Qmult; simpl. lia.
Qed.

Lemma pos_branch (d P M : Z) : 0 < d -> 1 <= P -> P <= M ->
  let s := (inject_Z d / inject_Z P * 32767)%Q in
  Qtrunc (Qmax (-32767) (Qmin 32767
    (if Qltb (Qabs s) (Qmax 4000 (2000 * (inject_Z (Z.abs d) / inject_Z M))) then 0%Q else s)))
  = if 32767 * d <? 4000 * P then 0 else Z.min 32767 (32767 * d / P).
Proof.
  intros hd hP hM s.
  assert (Hs : (s == Qmake (d * 32767) (Z.to_pos P))%Q) by (apply scaled_make; lia).
  assert (HP : Zpos (Z.to_pos P) = P) by (apply Z2Pos.id; lia).
  assert (HMp : Zpos (Z.to_pos M) = M) by (apply Z2Pos.id; lia).
  assert (Habs : (Qabs s == s)%Q).
  { apply Qabs_pos. rewrite Hs. unfold Qle; simpl. lia. }
  assert (Ht := deadzone_make (Z.abs d) M ltac:(lia)).
  assert (Hkeep : ~ (32767 * d < 4000 * P) ->
    Qtrunc (Qmax (-32767) (Qmin 32767 s)) = Z.min 32767 (32767 * d / P)).
  { intro hk.
    destruct (Qmin_cases 32767 s) as [[h2 e2]|[h2 e2]]; rewrite e2.
    - rewrite Hs in h2. unfold Qle in h2; cbn [Qnum Qden] in h2. rewrite HP in h2.
      rewrite Z.min_l by (apply Z.div_le_lower_bound; lia). reflexivity.
    - rewrite Hs in h2. unfold Qlt in h2; cbn [Qnum Qden] in h2. rewrite HP in h2.
      destruct (Qmax_cases (-32767) s) as [[h3 e3]|[h3 e3]]; rewrite e3.
      + exfalso. rewrite Hs in h3. unfold Qle in h3; cbn [Qnum Qden] in h3. lia.
      + rewrite (Qtrunc_compat _ _ Hs). unfold Qtrunc; cbn [Qnum Qden].
        rewrite HP, Z.quot_div_nonneg by lia.
        rewrite Z.min_r by (apply Z.lt_le_incl, Z.div_lt_upper_bound; lia).
        f_equal; lia. }
  unfold Qltb.
  destruct (Qlt_le_dec (Qabs s) _) as [h|h]; rewrite Habs in h;
    destruct (Qmax_cases 4000 (2000 * (inject_Z (Z.abs d) / inject_Z M))) as [[h1 e]|[h1 e]];
    rewrite e in h; rewrite ?Ht in h, h1; rewrite ?Hs in h;
    unfold Qlt, Qle in h, h1; cbn [Qnum Qden] in h, h1;
    rewrite ?HP in h; rewrite ?HP in h1; rewrite ?HMp in h; rewrite ?HMp in h1;
    rewrite ?(Z.abs_eq d) in h, h1 by lia.
  - destruct (Z.ltb_spec (32767 * d) (4000 * P)); [reflexivity | lia].
  - exfalso. nia.
  - destruct (Z.ltb_spec (32767 * d) (4000 * P)); [lia | apply Hkeep; lia].
  - destruct (Z.ltb_spec (32767 * d) (4000 * P)); [lia | apply Hkeep; lia].
Qed.

Lemma neg_branch (d N M : Z) : d < 0 -> 1 <= N -> N <= M ->
  let s := (inject_Z d / inject_Z N * 32767)%Q in
  Qtrunc (Qmax (-32767) (Qmin 32767
    (if Qltb (Qabs s) (Qmax 4000 (2000 * (inject_Z (Z.abs d) / inject_Z M))) then 0%Q else s)))
  = if 32767 * (- d) <? 4000 * N then 0 else - Z.min 32767 (32767 * (- d) / N).
Proof.
  intros hd hN hM s.
  assert (Hs : (s == Qmake (d * 32767) (Z.to_pos N))%Q) by (apply scaled_make; lia).
  assert (HN : Zpos (Z.to_pos N) = N) by (apply Z2Pos.id; lia).
  assert (HMp : Zpos (Z.to_pos M) = M) by (apply Z2Pos.id; lia).
  assert (Habs : (Qabs s == Qmake (- d * 32767) (Z.to_pos N))%Q).
  { rewrite Qabs_neg by (rewrite Hs; unfold Qle; cbn [Qnum Qden]; lia).
    rewrite Hs. unfold Qeq; cbn [Qnum Qden Qopp]. lia. }
  assert (Ht := deadzone_make (Z.abs d) M ltac:(lia)).
  assert (Hkeep : ~ (32767 * (- d) < 4000 * N) ->
    Qtrunc (Qmax (-32767) (Qmin 32767 s)) = - Z.min 32767 (32767 * (- d) / N)).
  { intro hk.
    destruct (Qmin_cases 32767 s) as [[h2 e2]|[h2 e2]]; rewrite e2.
    1:{ exfalso. rewrite Hs in h2. unfold Qle in h2; cbn [Qnum Qden] in h2. lia. }
    destruct (Qmax_cases (-32767) s) as [[h3 e3]|[h3 e3]]; rewrite e3.
    - rewrite Hs in h3. unfold Qle in h3; cbn [Qnum Qden] in h3. rewrite HN in h3.
      rewrite Z.min_l by (apply Z.div_le_lower_bound; lia). reflexivity.
    - rewrite Hs in h3. unfold Qlt in h3; cbn [Qnum Qden] in h3. rewrite HN in h3.
      rewrite (Qtrunc_compat _ _ Hs). unfold Qtrunc; cbn [Qnum Qden].
      rewrite HN.
      replace (d * 32767) with (- (32767 * - d)) by lia.
      rewrite Z.quot_opp_l, Z.quot_div_nonneg by lia.
      rewrite Z.min_r by (apply Z.lt_le_incl, Z.div_lt_upper_bound; lia).
      reflexivity. }
  unfold Qltb.
  destruct (Qlt_le_dec (Qabs s) _) as [h|h]; rewrite Habs in h;
    destruct (Qmax_cases 4000 (2000 * (inject_Z (Z.abs d) / inject_Z M))) as [[h1 e]|[h1 e]];
    rewrite e in h; rewrite ?Ht in h, h1;
    unfold Qlt, Qle in h, h1; cbn [Qnum Qden] in h, h1;
    rewrite ?HN in h; rewrite ?HN in h1; rewrite ?HMp in h; rewrite ?HMp in h1;
    rewrite ?(Z.abs_neq d) in h, h1 by lia.
  - destruct (Z.ltb_spec (32767 * - d) (4000 * N)); [reflexivity | lia].
  - exfalso. nia.
  - destruct (Z.ltb_spec (32767 * - d) (4000 * N)); [lia | apply Hkeep; lia].
  - destruct (Z.ltb_spec (32767 * - d) (4000 * N)); [lia | apply Hkeep; lia].
Qed.

Lemma normalize_closed (calib : calib_entry) (value : Z) :
  normalize_stick calib value false = norm_closed calib value.
Proof.
  unfold normalize_stick, norm_closed.
  set (c := center calib).
  set (N := Z.max (c - cmin calib) 1).
  set (P := Z.max (cmax calib - c) 1).
  destruct (Z.gtb_spec value c) as [h|h].
  - rewrite (proj2 (Z.ltb_lt 0 (value - c))) by lia.
    rewrite Z.abs_eq by lia.
    pose proof (pos_branch (value - c) P (Z.max N P)) as hb.
    rewrite Z.abs_eq in hb by lia. apply hb; lia.
  - destruct (Z.ltb_spec value c) as [h'|h'].
    + rewrite (proj2 (Z.ltb_ge 0 (value - c))) by lia.
      rewrite (proj2 (Z.ltb_lt (value - c) 0)) by lia.
      apply neg_branch; lia.
    + assert (value = c) by lia. subst value.
      rewrite Z.sub_diag. reflexivity.
Qed.

(** ** Sample evaluations *)

Example normalize_center_sentinel : normalize_stick sentinel_entry 128 false = 0.
Proof. reflexivity. Qed.
Example normalize_sentinel_129 : normalize_stick sentinel_entry 129 false = 32767.
Proof. reflexivity. Qed.
Example normalize_20_230_low : normalize_stick (mk_calib 20 230 128) 20 false = -32767.
Proof. reflexivity. Qed.
Example normalize_20_230_small : normalize_stick (mk_calib 20 230 128) 135 false = 0.
Proof. reflexivity. Qed.
Example normalize_20_230_mid : normalize_stick (mk_calib 20 230 128) 200 true = -23129.
Proof. reflexivity. Qed.



(** ** Claims on [_normalize_stick] *)

Ltac destruct_qdec :=
  repeat match goal with |- context [Qlt_le_dec ?a ?b] => destruct (Qlt_le_dec a b) end.

Ltac qdz_contra H :=
  match goal with
  | h1 : (?x < ?y)%Q, h2 : (?y' <= ?x)%Q |- _ =>
      first [ rewrite H in h1 | rewrite <- H in h1 ];
      exact (Qlt_not_le _ _ h1 h2)
  end.

(** C1: with the calibrated center at 128, [_normalize_stick] computes
    exactly the specification's formula: piecewise scaling by the
    clamped ranges, adaptive deadzone [max(4000, 2000*|v-128|/max(neg,pos))],
    clamp to [-32767, 32767], truncation and negation when inverted; in
    particular the center byte 128 maps to 0. *)
Theorem normalize_stick_formula (calib : calib_entry) (v : Z) (invert : bool) :
  center calib = 128 ->
  normalize_stick calib v invert = normalize_spec calib v invert
  /\ normalize_stick calib 128 false = 0.
Proof.
  intro Hc.
  assert (Hdz : forall a M : Q,
    (Qmax 4000 (2000 * (a / M)) == Qmax 4000 (2000 * a / M))%Q).
  { intros a M. apply Q.max_compat; [reflexivity | unfold Qdiv; ring]. }
  split.
  - unfold normalize_stick, normalize_spec, Qltb. rewrite Hc. cbv zeta.
    destruct (Z.compare_spec v 128) as [h|h|h].
    + subst v. rewrite Z.gtb_ltb, Z.ltb_irrefl.
      destruct_qdec; reflexivity.
    + rewrite Z.gtb_ltb, (proj2 (Z.ltb_ge 128 v)) by lia.
      rewrite (proj2 (Z.ltb_lt v 128)) by lia.
      destruct_qdec; try reflexivity; exfalso; qdz_contra Hdz.
    + rewrite Z.gtb_ltb, (proj2 (Z.ltb_lt 128 v)) by lia.
      destruct_qdec; try reflexivity; exfalso; qdz_contra Hdz.
  - rewrite normalize_closed. unfold norm_closed. rewrite Hc. reflexivity.
Qed.

Lemma if_zero_opp (c : bool) (y : Z) : (if c then 0 else - y) = - (if c then 0 else y).
Proof. destruct c; reflexivity. Qed.

(** The magnitude produced on one side of the center. *)
Lemma zone_nonneg (P d : Z) : 1 <= P -> 0 <= d ->
  0 <= (if 32767 * d <? 4000 * P then 0 else Z.min 32767 (32767 * d / P)).
Proof.
  intros hP hd. destruct (Z.ltb_spec (32767 * d) (4000 * P)); [lia|].
  apply Z.min_glb; [lia | apply Z.div_pos; lia].
Qed.

Lemma zone_mono (P d1 d2 : Z) : 1 <= P -> 0 <= d1 <= d2 ->
  (if 32767 * d1 <? 4000 * P then 0 else Z.min 32767 (32767 * d1 / P))
  <= (if 32767 * d2 <? 4000 * P then 0 else Z.min 32767 (32767 * d2 / P)).
Proof.
  intros hP hd.
  destruct (Z.ltb_spec (32767 * d1) (4000 * P)).
  - apply zone_nonneg; lia.
  - destruct (Z.ltb_spec (32767 * d2) (4000 * P)); [lia|].
    apply Z.min_le_compat_l, Z.div_le_mono; lia.
Qed.

(** C10: with the sentinel entry [{min: 255, max: 0, center: 128}] (the
    table at construction and right after [start_calibration]), both
    ranges clamp to 1 and [_normalize_stick] without inversion maps every
    byte above 128 to 32767, every byte below 128 to -32767 and 128 to
    0: the deadzone never zeroes a deviation from the center. *)
Theorem normalize_sentinel_full_scale (s : translator) (a : axis) (v : Z) :
  let expected := if 128 <? v then 32767 else if v <? 128 then -32767 else 0 in
  calibration_data translator_init a = sentinel_entry
  /\ calibration_data (fst (start_calibration s)) a = sentinel_entry
  /\ normalize_stick sentinel_entry v false = expected.
Proof.
  cbv zeta. split; [reflexivity | split; [reflexivity|]].
  rewrite normalize_closed. unfold norm_closed, sentinel_entry; cbn [center cmin cmax].
  replace (Z.max (128 - 255) 1) with 1 by reflexivity.
  replace (Z.max (0 - 128) 1) with 1 by reflexivity.
  rewrite !Z.div_1_r.
  destruct (Z.ltb_spec 0 (v - 128)); destruct (Z.ltb_spec 128 v); try lia.
  - destruct (Z.ltb_spec (32767 * (v - 128)) (4000 * 1)); [lia|]. lia.
  - destruct (Z.ltb_spec (v - 128) 0); destruct (Z.ltb_spec v 128); try lia.
    destruct (Z.ltb_spec (32767 * - (v - 128)) (4000 * 1)); [lia|]. lia.
Qed.

(** C8: [_normalize_stick] without inversion is monotonic non-decreasing
    in the raw byte, for every calibration entry (in particular every
    one with [min < 128 < max]); the deadzone flattening does not break
    monotonicity. *)
Theorem normalize_monotone (calib : calib_entry) (a b : Z) :
  cmin calib < 128 < cmax calib -> 0 <= a <= 255 -> 0 <= b <= 255 -> a <= b ->
  normalize_stick calib a false <= normalize_stick calib b false.
Proof.
  intros _ _ _ hab. rewrite !normalize_closed. unfold norm_closed.
  rewrite !if_zero_opp.
  set (c := center calib).
  set (N := Z.max (c - cmin calib) 1).
  set (P := Z.max (cmax calib - c) 1).
  assert (1 <= N) by lia. assert (1 <= P) by lia.
  destruct (Z.ltb_spec 0 (a - c)) as [ha|ha];
    destruct (Z.ltb_spec 0 (b - c)) as [hb|hb]; try lia.
  - apply zone_mono; lia.
  - destruct (Z.ltb_spec (a - c) 0) as [ha'|ha'];
      destruct (Z.ltb_spec (b - c) 0) as [hb'|hb'].
    + lia.
    + pose proof (zone_nonneg N (- (a - c)) ltac:(lia) ltac:(lia)).
      pose proof (zone_nonneg P (b - c) ltac:(lia) ltac:(lia)). lia.
    + lia.
    + pose proof (zone_nonneg P (b - c) ltac:(lia) ltac:(lia)). lia.
  - destruct (Z.ltb_spec (a - c) 0) as [ha'|ha'];
      destruct (Z.ltb_spec (b - c) 0) as [hb'|hb']; try lia.
    + apply Z.opp_le_mono. rewrite !Z.opp_involutive. apply zone_mono; lia.
    + pose proof (zone_nonneg N (- (a - c)) ltac:(lia) ltac:(lia)). lia.
Qed.

(** ** The D-pad decode *)

Lemma set_flag_low (c : bool) (k w : Z) :
  Z.land k 15 = 0 -> Z.land (set_flag c k w) 15 = Z.land w 15.
Proof.
  intro hk. destruct c; [|reflexivity]. unfold set_flag.
  rewrite Z.land_lor_distr_l, hk, Z.lor_0_r. reflexivity.
Qed.

Lemma low_nibble_range (b : Z) : 0 <= Z.land b 15 < 16.
Proof.
  change 15 with (Z.ones 4). rewrite Z.land_ones by lia.
  apply Z.mod_pos_bound. lia.
Qed.

Lemma decode_buttons_dpad (buttons misc : Z) :
  Z.land (decode_buttons buttons misc) 15 = dpad_flags_spec (Z.land buttons 15).
Proof.
  unfold decode_buttons.
  rewrite (set_flag_low _ 128), (set_flag_low _ 64), (set_flag_low _ 16),
    (set_flag_low _ 32), (set_flag_low _ 512), (set_flag_low _ 256),
    (set_flag_low _ 32768), (set_flag_low _ 8192), (set_flag_low _ 4096),
    (set_flag_low _ 16384) by reflexivity.
  pose proof (low_nibble_range buttons) as hr.
  generalize dependent (Z.land buttons 15). intros code hr.
  assert (code = 0 \/ code = 1 \/ code = 2 \/ code = 3 \/ code = 4 \/ code = 5 \/
          code = 6 \/ code = 7 \/ code = 8 \/ code = 9 \/ code = 10 \/ code = 11 \/
          code = 12 \/ code = 13 \/ code = 14 \/ code = 15) as hc by lia.
  repeat destruct hc as [hc|hc]; subst code; reflexivity.
Qed.

(** C2: for every report translated outside calibration, the D-pad bits
    of [wButtons] (its low four bits) are exactly the compass code's
    flags: 0 Up; 1 Up+Right; 2 Right; 3 Right+Down; 4 Down; 5 Down+Left;
    6 Left; 7 Left+Up; 8 and above none. *)
Theorem translate_dpad_decode (s : translator) (now : Q) (r : list Z) :
  is_calibrating s = false -> (32 <= length r)%nat ->
  exists x, snd (fst (translate s now r)) = Some x
    /\ Z.land (wButtons x) 15 = dpad_flags_spec (Z.land (byte_at r 5) 15).
Proof.
  intros hc hl. unfold translate.
  destruct (Nat.ltb_spec (length r) 32) as [h|h]; [lia|]. rewrite hc.
  destruct (Qltb 2 (now - last_battery_check s));
    [destruct (extract_battery_info r)|];
    cbn [drift_detection_enabled drift xinput_report];
    destruct (drift_detection_enabled s && negb (drift_check_performed (drift s)));
    try destruct (check_for_drift (drift s) now r);
    eexists; (split; [reflexivity | apply decode_buttons_dpad]).
Qed.

(** ** Short reports and calibration in [translate] *)

(** C5: a report that is empty or shorter than 32 bytes leaves the whole
    translator untouched (the output report included) and returns the
    previous output report; no signal is emitted. *)
Theorem translate_short_report (s : translator) (now : Q) (r : list Z) :
  (length r < 32)%nat -> translate s now r = (s, Some (xinput_report s), []).
Proof.
  intro h. unfold translate.
  destruct (Nat.ltb_spec (length r) 32); [reflexivity | lia].
Qed.


(** C6, counterexample: while calibrating, a 5-byte report is answered
    with the previous output report, not with [None]. *)
Lemma translate_calibrating_short_cex :
  ~ (forall s now r, is_calibrating s = true -> snd (fst (translate s now r)) = None).
Proof.
  intro H. specialize (H calibrating_state 1%Q [1; 128; 128; 128; 128] eq_refl).
  discriminate H.
Qed.

(** C6, as the code does it: while calibrating, every report of at
    least 32 bytes yields [None]; a shorter report (empty included)
    yields the previous output report, since the length guard comes
    first. *)
Theorem translate_calibrating (s : translator) (now : Q) (r : list Z) :
  is_calibrating s = true ->
  ((32 <= length r)%nat -> snd (fst (translate s now r)) = None)
  /\ ((length r < 32)%nat -> snd (fst (translate s now r)) = Some (xinput_report s)).
Proof.
  intro hc. split; intro hl; unfold translate.
  - destruct (Nat.ltb_spec (length r) 32); [lia|]. rewrite hc.
    destruct (calibrate s now r). reflexivity.
  - destruct (Nat.ltb_spec (length r) 32); [reflexivity | lia].
Qed.

(** ** Battery *)

Lemma land16_testbit (b : Z) : negb (Z.land b 16 =? 0) = Z.testbit b 4.
Proof.
  destruct (Z.testbit b 4) eqn:E.
  - apply negb_true_iff, Z.eqb_neq. intro H.
    assert (T : Z.testbit (Z.land b 16) 4 = true) by (rewrite Z.land_spec, E; reflexivity).
    rewrite H in T. discriminate T.
  - apply negb_false_iff, Z.eqb_eq. apply Z.bits_inj'. intros n hn.
    rewrite Z.land_spec, Z.bits_0.
    destruct (Z.eq_dec n 4) as [->|hne]; [rewrite E; reflexivity|].
    change 16 with (2 ^ 4). rewrite Z.pow2_bits_false by lia. apply andb_false_r.
Qed.

Lemma land15_mod (b : Z) : Z.land b 15 = b mod 16.
Proof. change 15 with (Z.ones 4). rewrite Z.land_ones by lia. reflexivity. Qed.

(** C7: for every full-length report, [_extract_battery_info] never
    reaches its [except] branch and emits: from a nonzero byte 30, the
    charging bit 4 and the low nibble times 10 (nibble <= 10) or the
    nibble itself clamped to 100; otherwise from a nonzero byte 12, that
    byte clamped to [0, 100], not charging; otherwise 50%, not charging. *)
Theorem battery_extraction (r : list Z) :
  (32 <= length r)%nat ->
  battery_try r = Some (battery_spec (byte_at r 30) (byte_at r 12))
  /\ extract_battery_info r = battery_spec (byte_at r 30) (byte_at r 12)
  /\ extract_battery_info (report 128 128 128 128 8 0 0 0 0 21) = (50, true)
  /\ extract_battery_info (report 128 128 128 128 8 0 0 0 77 0) = (77, false)
  /\ extract_battery_info (report 128 128 128 128 8 0 0 0 0 0) = (50, false).
Proof.
  intro hl.
  assert (E : battery_try r = Some (battery_spec (byte_at r 30) (byte_at r 12))).
  { unfold battery_try, battery_spec, byte_at.
    destruct (Nat.leb_spec 31 (length r)); [|lia].
    destruct (Nat.leb_spec 13 (length r)); [|lia].
    rewrite (nth_error_nth' r 0 (n := 30)) by lia.
    rewrite (nth_error_nth' r 0 (n := 12)) by lia.
    destruct (nth 30 r 0 =? 0) eqn:E30; cbn [negb].
    - destruct (nth 12 r 0 =? 0); cbn [negb]; [reflexivity|].
      f_equal; f_equal; lia.
    - rewrite land16_testbit, land15_mod.
      pose proof (Z.mod_pos_bound (nth 30 r 0) 16 ltac:(lia)).
      destruct (Z.leb_spec (nth 30 r 0 mod 16) 10); f_equal; f_equal; lia. }
  split; [exact E|]. split; [unfold extract_battery_info; rewrite E; reflexivity|].
  split; [reflexivity | split; reflexivity].
Qed.

(** ** Calibration *)

Lemma fold_min_le (l : list Z) (m x : Z) :
  fold_left Z.min l m <= x <-> m <= x \/ exists v, In v l /\ v <= x.
Proof.
  revert m. induction l as [|y l IH]; intro m; cbn [fold_left].
  - split; [left; exact H | intros [h|[v [[] _]]]; exact h].
  - rewrite IH, Z.min_le_iff. split.
    + intros [[h|h]|[v [hv h]]]; [left; exact h | right; exists y; split; [left|]; auto |
        right; exists v; split; [right|]; auto].
    + intros [h|[v [[<-|hv] h]]]; [left; left; exact h | left; right; exact h |
        right; exists v; auto].
Qed.

Lemma fold_max_ge (l : list Z) (m x : Z) :
  x <= fold_left Z.max l m <-> x <= m \/ exists v, In v l /\ x <= v.
Proof.
  revert m. induction l as [|y l IH]; intro m; cbn [fold_left].
  - split; [left; exact H | intros [h|[v [[] _]]]; exact h].
  - rewrite IH, Z.max_le_iff. split.
    + intros [[h|h]|[v [hv h]]]; [left; exact h | right; exists y; split; [left|]; auto |
        right; exists v; split; [right|]; auto].
    + intros [h|[v [[<-|hv] h]]]; [left; left; exact h | left; right; exact h |
        right; exists v; auto].
Qed.

Lemma translate_calibrating_table (s : translator) (now : Q) (r : list Z) :
  is_calibrating s = true ->
  is_calibrating (fst (fst (translate s now r))) = true
  /\ calibration_data (fst (fst (translate s now r)))
     = if (32 <=? length r)%nat
       then calib_update (calibration_data s)
              (axis_byte r LX) (axis_byte r LY) (axis_byte r RX) (axis_byte r RY)
       else calibration_data s.
Proof.
  intro hc. unfold translate.
  destruct (Nat.ltb_spec (length r) 32) as [h|h];
    destruct (Nat.leb_spec 32 (length r)); try lia.
  - split; [exact hc | reflexivity].
  - rewrite hc. unfold calibrate.
    destruct (Nat.ltb_spec (length r) 5); [lia|].
    cbn [set_calibration is_calibrating negb]. rewrite hc. cbn [negb fst].
    split; [exact hc | reflexivity].
Qed.

Lemma calibration_fold (evs : list (Q * list Z)) (s : translator) :
  is_calibrating s = true ->
  let s' := fold_left (fun s e => fst (fst (translate s (fst e) (snd e)))) evs s in
  is_calibrating s' = true
  /\ forall a, calibration_data s' a
     = mk_calib (fold_left Z.min (accepted_samples evs a) (cmin (calibration_data s a)))
                (fold_left Z.max (accepted_samples evs a) (cmax (calibration_data s a)))
                (center (calibration_data s a)).
Proof.
  revert s. induction evs as [|e evs IH]; intros s hc; cbn [fold_left].
  - split; [exact hc|]. intro a. destruct (calibration_data s a); reflexivity.
  - destruct (translate_calibrating_table s (fst e) (snd e) hc) as [hc' ht].
    destruct (IH _ hc') as [hc'' ha]. split; [exact hc''|].
    intro a. rewrite ha, ht. unfold accepted_samples. cbn [filter].
    destruct (32 <=? length (snd e))%nat; [|reflexivity].
    cbn [map fold_left]. unfold calib_update.
    destruct a; reflexivity.
Qed.


(** C9, counterexample: after [start_calibration], a single accepted
    report whose left-stick X byte is 200 leaves [min = 200 > 128]. *)
Lemma calibration_center_cex :
  calibration_data cex_calibration_session LX = mk_calib 200 200 128
  /\ ~ (cmin (calibration_data cex_calibration_session LX) <= 128
        <= cmax (calibration_data cex_calibration_session LX)).
Proof.
  split; [reflexivity|]. cbn. lia.
Qed.

(** C9, as the code does it: after [start_calibration] and any sequence
    of reports, each axis entry keeps center 128 and holds the minimum
    and maximum of the sentinel 255/0 and the axis bytes of the accepted
    (32-byte or longer) reports; so every sample lies in [min, max], and
    [min <= 128 <= max] holds exactly when some sample is <= 128 and some
    sample is >= 128. *)
Theorem calibration_min_max (s : translator) (evs : list (Q * list Z)) (a : axis) :
  let t := calibration_data (calibration_session s evs) a in
  let vals := accepted_samples evs a in
  t = mk_calib (fold_left Z.min vals 255) (fold_left Z.max vals 0) 128
  /\ (forall v, In v vals -> cmin t <= v <= cmax t)
  /\ (cmin t <= 128 <= cmax t <->
      (exists v, In v vals /\ v <= 128) /\ (exists v, In v vals /\ 128 <= v)).
Proof.
  cbv zeta. unfold calibration_session.
  destruct (calibration_fold evs (fst (start_calibration s)) eq_refl) as [_ ha].
  rewrite ha. cbn [start_calibration fst calibration_data set_calibration sentinel_table
    sentinel_entry cmin cmax center].
  split; [reflexivity|]. split.
  - intros v hv. split.
    + apply fold_min_le. right; exists v; split; [exact hv | lia].
    + apply fold_max_ge. right; exists v; split; [exact hv | lia].
  - rewrite fold_min_le, fold_max_ge. split.
    + intros [[h1|h1] [h2|h2]]; try lia. split; assumption.
    + intros [h1 h2]. split; right; assumption.
Qed.

(** ** Drift sampling *)



(** C4 (code evaluated at the failing input): the report at rest is
    decoded by [translate] as no button at all, yet [_check_for_drift]
    reads its byte 5 ([0x08]) as a pressed button and discards every
    sample instead of appending one. *)
Theorem drift_released_dpad_discards :
  let out := translate one_sample_state 1 released_report in
  option_map wButtons (snd (fst out)) = Some 0
  /\ byte_at released_report 6 = 0
  /\ byte_at released_report 8 <= 10 /\ byte_at released_report 9 <= 10
  /\ (forall a, drift_samples (drift (fst (fst out))) a = [])
  /\ drift_sample_count (drift (fst (fst out))) = 0.
Proof.
  cbv zeta. split; [reflexivity|]. split; [reflexivity|].
  split; [cbn; lia|]. split; [cbn; lia|].
  split; [intro a; destruct a; reflexivity | reflexivity].
Qed.

(** ** Drift analysis *)

Lemma consistent_direction_int (n a b : Z) :
  Qltb (inject_Z n * (8 # 10)) (inject_Z (Z.max a b))
  = (4 * n <? 5 * a) || (4 * n <? 5 * b).
Proof.
  unfold Qltb. destruct (Qlt_le_dec _ _) as [h|h];
    unfold Qlt, Qle in h; cbn [Qnum Qden Qmult inject_Z] in h;
    destruct (Z.ltb_spec (4 * n) (5 * a)); destruct (Z.ltb_spec (4 * n) (5 * b));
    cbn [orb]; try reflexivity; exfalso;
    destruct (Z.max_spec a b) as [[? hm]|[? hm]]; rewrite hm in h; lia.
Qed.

Lemma axis_has_drift_spec (l : list Z) : axis_has_drift l = drift_flag_spec l.
Proof.
  unfold axis_has_drift, drift_flag_spec, count_if. cbv zeta.
  rewrite consistent_direction_int.
  destruct (Nat.ltb_spec (length l) 10) as [h|h].
  - destruct (Z.leb_spec 10 (Z.of_nat (length l))); [lia | reflexivity].
  - destruct (Z.leb_spec 10 (Z.of_nat (length l))); [|lia].
    cbn [andb]. rewrite orb_assoc. reflexivity.
Qed.

Lemma analyze_fresh_spec (d : drift_state) :
  drift_detected_axes d = [] ->
  snd (analyze_drift_samples d) = drift_result_spec (drift_samples d).
Proof.
  intro h. unfold analyze_drift_samples, drift_result_spec. rewrite h.
  unfold axes. cbn [filter snd].
  rewrite !axis_has_drift_spec.
  destruct (drift_flag_spec (drift_samples d LX)), (drift_flag_spec (drift_samples d LY)),
    (drift_flag_spec (drift_samples d RX)), (drift_flag_spec (drift_samples d RY));
    reflexivity.
Qed.

(** The pass run by [_check_for_drift] analyses the buffers extended by
    the current report, with the detected-axes set found on entry. *)
Lemma check_for_drift_emits (d d' : drift_state) (now : Q) (r : list Z) (info : drift_result) :
  check_for_drift d now r = (d', Some info) ->
  info = snd (analyze_drift_samples
                (mk_drift (fun a => drift_samples d a ++ [axis_byte r a])
                          (drift_sample_count d + 1) (drift_detected_axes d) now
                          (drift_check_performed d))).
Proof.
  unfold check_for_drift. intro H.
  destruct (length r <? 5)%nat; [discriminate H|].
  destruct (Qltb (now - last_drift_check d) (1 # 10)); [discriminate H|].
  cbn [drift_samples drift_sample_count drift_detected_axes last_drift_check
       drift_check_performed] in H.
  destruct (_ || _); [discriminate H|].
  destruct (30 <=? drift_sample_count d + 1); [|discriminate H].
  match type of H with context [analyze_drift_samples ?x] =>
    destruct (analyze_drift_samples x) as [d2 i2] eqn:E end.
  injection H as _ <-.
  match goal with |- _ = snd (analyze_drift_samples ?y) =>
    match type of E with analyze_drift_samples ?x = _ =>
      change y with x end end.
  rewrite E. reflexivity.
Qed.

Lemma check_for_drift_inv (d : drift_state) (now : Q) (r : list Z) :
  (drift_check_performed d = false -> drift_detected_axes d = []) ->
  let d' := fst (check_for_drift d now r) in
  drift_check_performed d' = false -> drift_detected_axes d' = [].
Proof.
  intros hinv d'. subst d'. unfold check_for_drift.
  destruct (length r <? 5)%nat; [exact hinv|].
  destruct (Qltb (now - last_drift_check d) (1 # 10)); [exact hinv|].
  cbn [drift_samples drift_sample_count drift_detected_axes last_drift_check
       drift_check_performed].
  destruct (_ || _); [exact hinv|].
  destruct (30 <=? drift_sample_count d + 1); [|exact hinv].
  match goal with |- context [analyze_drift_samples ?x] =>
    destruct (analyze_drift_samples x) end.
  cbn. discriminate.
Qed.

(** What [translate] does to the drift state. *)
Lemma translate_drift (s : translator) (now : Q) (r : list Z) :
  drift (fst (fst (translate s now r))) = drift s
  \/ (drift_check_performed (drift s) = false
      /\ drift (fst (fst (translate s now r))) = fst (check_for_drift (drift s) now r)).
Proof.
  unfold translate.
  destruct (length r <? 32)%nat; [left; reflexivity|].
  destruct (is_calibrating s) eqn:hc.
  - left. unfold calibrate.
    destruct (length r <? 5)%nat; [reflexivity|].
    cbn [set_calibration is_calibrating]. rewrite hc. reflexivity.
  - destruct (Qltb 2 (now - last_battery_check s));
      [destruct (extract_battery_info r)|];
      cbn [drift_detection_enabled drift];
      destruct (drift_detection_enabled s) eqn:he;
      destruct (drift_check_performed (drift s)) eqn:hp; cbn [andb negb];
      try (left; reflexivity);
      right; (split; [reflexivity|]);
      destruct (check_for_drift (drift s) now r); reflexivity.
Qed.

(** Every reachable translator has an empty detected-axes set while the
    drift check is still to be performed. *)
Lemma reachable_drift_inv (s : translator) :
  reachable s ->
  drift_check_performed (drift s) = false -> drift_detected_axes (drift s) = [].
Proof.
  induction 1 as [|s e hr IH].
  - reflexivity.
  - destruct e as [now r| | |]; cbn [step].
    + destruct (translate_drift s now r) as [E|[_ E]]; rewrite E;
        [exact IH | apply check_for_drift_inv; exact IH].
    + exact IH.
    + exact IH.
    + cbn. reflexivity.
Qed.

(** A drift event comes from a pass run by [translate]'s drift check. *)
Lemma translate_drift_signal (s s' : translator) (now : Q) (r : list Z)
    (out : option xinput) (sigs : list signal) (info : drift_result) :
  translate s now r = (s', out, sigs) -> In (SigDrift info) sigs ->
  drift_check_performed (drift s) = false
  /\ exists d', check_for_drift (drift s) now r = (d', Some info).
Proof.
  unfold translate. intros H hin.
  destruct (length r <? 32)%nat.
  { injection H as _ _ <-. destruct hin. }
  destruct (is_calibrating s) eqn:hc.
  { unfold calibrate in H.
    destruct (length r <? 5)%nat.
    - injection H as _ _ <-. destruct hin.
    - cbn [set_calibration is_calibrating] in H. rewrite hc in H. cbn [negb] in H.
      injection H as _ _ <-. destruct hin as [h|[h|[]]]; discriminate h. }
  assert (hb : forall lbc bs,
    (lbc, bs) = (if Qltb 2 (now - last_battery_check s)
                 then (now, let '(lvl, chg) := extract_battery_info r in [SigBattery lvl chg])
                 else (last_battery_check s, [])) ->
    ~ In (SigDrift info) bs).
  { intros lbc bs e. destruct (Qltb _ _).
    - destruct (extract_battery_info r). cbv beta iota in e. injection e as _ ->.
      intros [h|[]]; discriminate h.
    - injection e as _ ->. intros []. }
  destruct (if Qltb 2 (now - last_battery_check s) then _ else _) as [lbc bs] eqn:E.
  specialize (hb lbc bs eq_refl).
  cbn [drift_detection_enabled drift] in H.
  destruct (drift_detection_enabled s && negb (drift_check_performed (drift s))) eqn:hp.
  - apply andb_true_iff in hp. destruct hp as [_ hp]. apply negb_true_iff in hp.
    split; [exact hp|].
    destruct (check_for_drift (drift s) now r) as [d' [i|]] eqn:C;
      injection H as _ _ <-.
    + apply in_app_or in hin. destruct hin as [hin|[h|[]]]; [contradiction|].
      injection h as ->. exists d'. reflexivity.
    + rewrite app_nil_r in hin. contradiction.
  - injection H as _ _ <-. contradiction.
Qed.

Lemma run_reachable (evs : list event) (s : translator) :
  reachable s -> reachable (run s evs).
Proof.
  revert s. induction evs as [|e evs IH]; intros s hs; cbn [run fold_left].
  - exact hs.
  - apply IH. constructor. exact hs.
Qed.

(** C3: every drift event emitted by a reachable translator is the
    result of one analysis pass over the buffers it analysed (those on
    entry extended by the current report): an axis with at least 10
    samples is flagged iff [|mean - 128| > 8] and (range < 6 or more than
    80% of the samples on one side of 128); [has_drift] iff some axis is
    flagged; severity None/Mild/Moderate/Severe for 0/1/2/3+ axes
    flagged in that pass (the detected-axes set is empty whenever a pass
    can run).  Thirty samples of mean 140 and range 4 on the left X
    axis alone yield [{true, [LX], Mild}]; thirty samples of 128 yield
    [has_drift = false]. *)
Theorem drift_pass_result :
  (forall (s s' : translator) (now : Q) (r : list Z) (out : option xinput)
          (sigs : list signal) (info : drift_result),
     reachable s -> translate s now r = (s', out, sigs) -> In (SigDrift info) sigs ->
     info = drift_result_spec (fun a => drift_samples (drift s) a ++ [axis_byte r a]))
  /\ In (SigDrift (mk_drift_result true [LX] Mild))
        (snd (translate (run translator_init (sample_ticks 1 (firstn 29 lx_drift_samples)))
                        30 (lx_report (nth 29 lx_drift_samples 0))))
  /\ In (SigDrift (mk_drift_result false [] SevNone))
        (snd (translate (run translator_init (sample_ticks 1 (firstn 29 centered_samples)))
                        30 (lx_report 128))).
Proof.
  split; [|split].
  - intros s s' now r out sigs info hr ht hin.
    destruct (translate_drift_signal s s' now r out sigs info ht hin) as [hp [d' hc]].
    rewrite (check_for_drift_emits _ _ _ _ _ hc).
    apply analyze_fresh_spec. cbn [drift_detected_axes].
    apply reachable_drift_inv; assumption.
  - vm_compute. tauto.
  - vm_compute. tauto.
Qed.

(** ** Witnesses: the theorems applied at concrete inputs *)

Lemma normalize_stick_formula_witness :
  normalize_stick (mk_calib 20 230 128) 200 true = normalize_spec (mk_calib 20 230 128) 200 true
  /\ normalize_stick (mk_calib 20 230 128) 200 true = -23129.
Proof.
  split.
  - exact (proj1 (normalize_stick_formula (mk_calib 20 230 128) 200 true eq_refl)).
  - reflexivity.
Defined.

Lemma translate_dpad_decode_witness :
  exists x, snd (fst (translate translator_init 1 (report 128 128 128 128 3 0 0 0 0 0))) = Some x
    /\ Z.land (wButtons x) 15 = Z.lor DPAD_RIGHT DPAD_DOWN.
Proof.
  exact (translate_dpad_decode translator_init 1 (report 128 128 128 128 3 0 0 0 0 0)
           eq_refl ltac:(vm_compute; lia)).
Defined.

Lemma drift_pass_result_witness :
  let s := run translator_init (sample_ticks 1 (firstn 29 lx_drift_samples)) in
  let t := translate s 30 (lx_report 142) in
  mk_drift_result true [LX] Mild
  = drift_result_spec (fun a => drift_samples (drift s) a ++ [axis_byte (lx_report 142) a]).
Proof.
  cbv zeta.
  apply (proj1 drift_pass_result
           (run translator_init (sample_ticks 1 (firstn 29 lx_drift_samples)))
           (fst (fst (translate (run translator_init (sample_ticks 1 (firstn 29 lx_drift_samples)))
                                30 (lx_report 142))))
           (inject_Z 30) (lx_report 142)
           (snd (fst (translate (run translator_init (sample_ticks 1 (firstn 29 lx_drift_samples)))
                                30 (lx_report 142))))
           (snd (translate (run translator_init (sample_ticks 1 (firstn 29 lx_drift_samples)))
                           30 (lx_report 142)))).
  - apply run_reachable. constructor.
  - vm_compute. reflexivity.
  - vm_compute. tauto.
Defined.

Lemma translate_short_report_witness :
  translate translator_init 1 [1; 128; 128] = (translator_init, Some xinput_init, []).
Proof. exact (translate_short_report translator_init 1 [1; 128; 128] ltac:(cbn; lia)). Defined.

Lemma translate_calibrating_witness :
  snd (fst (translate calibrating_state 1 released_report)) = None
  /\ snd (fst (translate calibrating_state 1 [1; 128])) = Some xinput_init.
Proof.
  split.
  - exact (proj1 (translate_calibrating calibrating_state 1 released_report eq_refl)
             ltac:(vm_compute; lia)).
  - exact (proj2 (translate_calibrating calibrating_state 1 [1; 128] eq_refl)
             ltac:(cbn; lia)).
Defined.

Lemma battery_extraction_witness :
  extract_battery_info (report 128 128 128 128 8 0 0 0 0 27) = battery_spec 27 0
  /\ battery_spec 27 0 = (11, true).
Proof.
  split; [|reflexivity].
  exact (proj1 (proj2 (battery_extraction (report 128 128 128 128 8 0 0 0 0 27)
                         ltac:(vm_compute; lia)))).
Defined.

Lemma normalize_monotone_witness :
  normalize_stick (mk_calib 20 230 128) 100 false <= normalize_stick (mk_calib 20 230 128) 200 false.
Proof.
  exact (normalize_monotone (mk_calib 20 230 128) 100 200
           ltac:(cbn; lia) ltac:(lia) ltac:(lia) ltac:(lia)).
Defined.

Lemma calibration_min_max_witness :
  cmin (calibration_data cex_calibration_session LX) <= 200
    <= cmax (calibration_data cex_calibration_session LX).
Proof.
  exact (proj1 (proj2 (calibration_min_max translator_init
                         [(1%Q, report 200 128 128 128 8 0 0 0 0 0)] LX))
           200 ltac:(vm_compute; left; reflexivity)).
Defined.

(** ** Further properties of the translator, the virtual pad and the
    input loop *)


Lemma bit_set_set_flag (c : bool) (k w m : Z) :
  bit_set (set_flag c k w) m = (c && bit_set k m) || bit_set w m.
Proof.
  destruct c; [|reflexivity]. unfold set_flag, bit_set. cbn [andb].
  rewrite Z.land_lor_distr_l.
  destruct (Z.eqb_spec (Z.land w m) 0) as [h1|h1];
    destruct (Z.eqb_spec (Z.land k m) 0) as [h2|h2];
    destruct (Z.eqb_spec (Z.lor (Z.land w m) (Z.land k m)) 0) as [h3|h3];
    try reflexivity; exfalso;
    [ rewrite h1, h2 in h3; apply h3; reflexivity
    | apply Z.lor_eq_0_iff in h3; tauto .. ].
Qed.

Lemma bit_set_0 (m : Z) : bit_set 0 m = false.
Proof. reflexivity. Qed.

Lemma decode_buttons_bits (b5 b6 : Z) :
  let w := decode_buttons b5 b6 in
  let code := Z.land b5 15 in
  bit_set w 4096 = bit_set b5 32 /\ bit_set w 8192 = bit_set b5 64
  /\ bit_set w 16384 = bit_set b5 16 /\ bit_set w 32768 = bit_set b5 128
  /\ bit_set w 1 = (code =? 0) || (code =? 1) || (code =? 7)
  /\ bit_set w 2 = (code =? 3) || (code =? 4) || (code =? 5)
  /\ bit_set w 4 = (code =? 5) || (code =? 6) || (code =? 7)
  /\ bit_set w 8 = (code =? 1) || (code =? 2) || (code =? 3)
  /\ bit_set w 256 = bit_set b6 1 /\ bit_set w 512 = bit_set b6 2
  /\ bit_set w 16 = bit_set b6 32 /\ bit_set w 32 = bit_set b6 16
  /\ bit_set w 64 = bit_set b6 64 /\ bit_set w 128 = bit_set b6 128
  /\ bit_set w 1024 = false /\ bit_set w 2048 = false.
Proof.
  cbv zeta. unfold decode_buttons. rewrite !bit_set_set_flag, !bit_set_0.
  repeat match goal with |- context [bit_set (Zpos ?k) (Zpos ?m)] =>
    let v := eval vm_compute in (bit_set (Zpos k) (Zpos m)) in
    change (bit_set (Zpos k) (Zpos m)) with v end.
  rewrite ?andb_false_r, ?andb_true_r, ?orb_false_r, ?orb_false_l.
  repeat split.
Qed.

Lemma log2_16 (x : Z) : 0 <= x < 65536 -> Z.log2 x < 16.
Proof.
  intro h. destruct (Z.eq_dec x 0) as [->|hx]; [reflexivity|].
  apply Z.log2_lt_pow2; [lia | exact (proj2 h)].
Qed.

Lemma set_flag_range (c : bool) (k w : Z) :
  0 <= k < 65536 -> 0 <= w < 65536 -> 0 <= set_flag c k w < 65536.
Proof.
  intros hk hw. destruct c; [|exact hw]. unfold set_flag.
  assert (0 <= Z.lor w k) by (apply Z.lor_nonneg; lia).
  split; [assumption|].
  destruct (Z.eq_dec (Z.lor w k) 0) as [e|e]; [lia|].
  change 65536 with (2 ^ 16). apply Z.log2_lt_pow2; [lia|].
  rewrite Z.log2_lor by lia.
  pose proof (log2_16 w hw). pose proof (log2_16 k hk). lia.
Qed.

Lemma decode_buttons_range (b5 b6 : Z) : 0 <= decode_buttons b5 b6 < 65536.
Proof.
  unfold decode_buttons.
  repeat (apply set_flag_range; [lia|]). lia.
Qed.

Lemma press_if_app (c : bool) (b : xusb_button) (l : list xusb_button) :
  press_if c b l = l ++ (if c then [b] else []).
Proof. destruct c; [reflexivity | symmetry; apply app_nil_r]. Qed.

Lemma send_report_buttons (p : vpad) (b5 b6 : Z) (x : xinput) :
  wButtons x = decode_buttons b5 b6 ->
  pressed (send_report true p x) = ds4_pressed b5 b6.
Proof.
  intro hw. unfold send_report, ds4_pressed. cbn [negb pressed]. rewrite hw.
  destruct (decode_buttons_bits b5 b6) as
    (e1 & e2 & e3 & e4 & e5 & e6 & e7 & e8 & e9 & e10 & e11 & e12 & e13 & e14 & _).
  rewrite e1, e2, e3, e4, e5, e6, e7, e8, e9, e10, e11, e12, e13, e14.
  rewrite !press_if_app, <- !app_assoc. reflexivity.
Qed.

(** The report [translate] returns for a full report outside calibration. *)
Lemma translate_full_report (s : translator) (now : Q) (r : list Z) :
  is_calibrating s = false -> (32 <= length r)%nat ->
  snd (fst (translate s now r))
  = Some (mk_xinput (decode_buttons (byte_at r 5) (byte_at r 6))
                    (byte_at r 8) (byte_at r 9)
                    (normalize_stick (calibration_data s LX) (byte_at r 1) false)
                    (normalize_stick (calibration_data s LY) (byte_at r 2) true)
                    (normalize_stick (calibration_data s RX) (byte_at r 3) false)
                    (normalize_stick (calibration_data s RY) (byte_at r 4) true)).
Proof.
  intros hc hl. unfold translate.
  destruct (Nat.ltb_spec (length r) 32) as [h|h]; [lia|]. rewrite hc.
  destruct (Qltb 2 (now - last_battery_check s));
    [destruct (extract_battery_info r)|];
    cbn [drift_detection_enabled drift xinput_report];
    destruct (drift_detection_enabled s && negb (drift_check_performed (drift s)));
    try destruct (check_for_drift (drift s) now r); reflexivity.
Qed.

(** X2: outside calibration, a full report read by [_process_input]
    reaches the connected virtual pad as exactly the DS4 buttons it holds
    (in [send_report]'s order), the calibrated sticks with both Y axes
    negated, and the raw trigger bytes. *)
Theorem process_input_end_to_end (s : translator) (p : vpad) (now : Q) (r : list Z) :
  is_calibrating s = false -> (32 <= length r)%nat ->
  let p' := snd (fst (process_input true s p now r)) in
  let cal := calibration_data s in
  pressed p' = ds4_pressed (byte_at r 5) (byte_at r 6)
  /\ left_joystick p' = (normalize_stick (cal LX) (byte_at r 1) false,
                         - normalize_stick (cal LY) (byte_at r 2) false)
  /\ right_joystick p' = (normalize_stick (cal RX) (byte_at r 3) false,
                          - normalize_stick (cal RY) (byte_at r 4) false)
  /\ left_trigger p' = byte_at r 8 /\ right_trigger p' = byte_at r 9.
Proof.
  intros hc hl. cbv zeta.
  assert (E := translate_full_report s now r hc hl).
  unfold process_input.
  destruct r as [|b r']; [cbn in hl; lia|].
  destruct (translate s now (b :: r')) as [[s' out] sigs].
  cbn [snd fst] in E. subst out. cbn [snd fst].
  split; [apply send_report_buttons; reflexivity|].
  unfold send_report. cbn. repeat split.
Qed.

Lemma translate_calibrating_fields (s : translator) (now : Q) (r : list Z) :
  is_calibrating s = true ->
  let s' := fst (fst (translate s now r)) in
  is_calibrating s' = true /\ xinput_report s' = xinput_report s
  /\ last_battery_check s' = last_battery_check s /\ drift s' = drift s
  /\ drift_detection_enabled s' = drift_detection_enabled s.
Proof.
  intro hc. cbv zeta. unfold translate.
  destruct (length r <? 32)%nat; [repeat split; assumption|].
  rewrite hc. unfold calibrate.
  destruct (length r <? 5)%nat; [repeat split; assumption|].
  cbn [set_calibration is_calibrating negb]. rewrite hc. cbn.
  repeat split; assumption.
Qed.


Lemma translate_battery (s : translator) (now : Q) (r : list Z) :
  let '(s', _, sigs) := translate s now r in
  let due := (32 <=? length r)%nat && negb (is_calibrating s)
             && Qltb 2 (now - last_battery_check s) in
  filter is_battery_signal sigs
    = (if due then [SigBattery (fst (extract_battery_info r)) (snd (extract_battery_info r))]
       else [])
  /\ last_battery_check s' = (if due then now else last_battery_check s).
Proof.
  unfold translate.
  destruct (Nat.ltb_spec (length r) 32) as [hl|hl];
    destruct (Nat.leb_spec 32 (length r)) as [hl'|hl']; try lia.
  - split; reflexivity.
  - cbn [andb]. destruct (is_calibrating s) eqn:hc.
    + unfold calibrate. destruct (Nat.ltb_spec (length r) 5); [lia|].
      cbn [set_calibration is_calibrating negb]. rewrite hc. cbn.
      split; reflexivity.
    + cbn [negb andb].
      destruct (Qltb 2 (now - last_battery_check s));
        [destruct (extract_battery_info r) as [lvl chg]|];
        cbn [drift_detection_enabled drift last_battery_check];
        destruct (drift_detection_enabled s && negb (drift_check_performed (drift s)));
        try (destruct (check_for_drift (drift s) now r) as [d [i|]]);
        cbn; split; reflexivity.
Qed.

(** X4: [translate] emits one battery signal, with the status of
    [_extract_battery_info], exactly when the report is full, no
    calibration runs and more than 2 s passed since the last check;
    after such a call, a call within 2 s emits none. *)
Theorem battery_check_throttled (s : translator) (now now' : Q) (r r' : list Z) :
  let '(s1, _, sigs1) := translate s now r in
  let due := (32 <=? length r)%nat && negb (is_calibrating s)
             && Qltb 2 (now - last_battery_check s) in
  filter is_battery_signal sigs1
    = (if due then [SigBattery (fst (extract_battery_info r)) (snd (extract_battery_info r))]
       else [])
  /\ (due = true -> (now' - now <= 2)%Q ->
      filter is_battery_signal (snd (translate s1 now' r')) = []).
Proof.
  pose proof (translate_battery s now r) as H1.
  destruct (translate s now r) as [[s1 out1] sigs1].
  destruct H1 as [H1 H2]. split; [exact H1|].
  intros hdue hle.
  pose proof (translate_battery s1 now' r') as H3.
  destruct (translate s1 now' r') as [[s2 out2] sigs2]. destruct H3 as [H3 _].
  cbn [snd]. rewrite H3. rewrite hdue in H2. rewrite H2.
  unfold Qltb. destruct (Qlt_le_dec 2 (now' - now)) as [h|h].
  - exfalso. exact (Qlt_not_le _ _ h hle).
  - rewrite andb_false_r. reflexivity.
Qed.

(** X5: for a report of any length, [_extract_battery_info] never reaches
    its [except] branch; the level is within [0, 100], and charging is
    only reported from a byte 30 (present) with bit 4 set. *)
Theorem battery_always_status (r : list Z) :
  exists lvl chg, battery_try r = Some (lvl, chg) /\ 0 <= lvl <= 100
    /\ (chg = true -> (31 <= length r)%nat /\ bit_set (byte_at r 30) 16 = true).
Proof.
  unfold battery_try, byte_at.
  destruct (Nat.leb_spec 31 (length r)) as [h31|h31].
  - rewrite (nth_error_nth' r 0 (n := 30)) by lia.
    destruct (nth 30 r 0 =? 0) eqn:E30; cbn [negb].
    + rewrite (proj2 (Nat.leb_le 13 (length r))) by lia.
      rewrite (nth_error_nth' r 0 (n := 12)) by lia.
      destruct (nth 12 r 0 =? 0); cbn [negb].
      * exists 50, false. split; [reflexivity|]. split; [lia | discriminate].
      * eexists _, false. split; [reflexivity|]. split; [lia | discriminate].
    + pose proof (low_nibble_range (nth 30 r 0)).
      eexists _, _. split; [reflexivity|]. split.
      * destruct (Z.leb_spec (Z.land (nth 30 r 0) 15) 10); lia.
      * intro hc. split; [exact h31 | exact hc].
  - destruct (Nat.leb_spec 13 (length r)) as [h13|h13].
    + rewrite (nth_error_nth' r 0 (n := 12)) by lia.
      destruct (nth 12 r 0 =? 0); cbn [negb].
      * exists 50, false. split; [reflexivity|]. split; [lia | discriminate].
      * eexists _, false. split; [reflexivity|]. split; [lia | discriminate].
    + exists 50, false. split; [reflexivity|]. split; [lia | discriminate].
Qed.

Lemma check_for_drift_buffers (d : drift_state) (now : Q) (r : list Z) :
  buffers_ok d -> buffers_ok (fst (check_for_drift d now r)).
Proof.
  intros [hl hc]. unfold check_for_drift.
  destruct (length r <? 5)%nat; [split; assumption|].
  destruct (Qltb (now - last_drift_check d) (1 # 10)); [split; assumption|].
  cbn [drift_samples drift_sample_count drift_detected_axes last_drift_check
       drift_check_performed].
  destruct (_ || _).
  - split; [intro a; reflexivity | cbn; lia].
  - destruct (Z.leb_spec 30 (drift_sample_count d + 1)).
    + unfold analyze_drift_samples. split; [intro a; reflexivity | cbn; lia].
    + split; cbn [fst drift_samples drift_sample_count]; [|lia].
      intro a. rewrite length_app, hl. cbn [length]. lia.
Qed.

(** X6: in every reachable translator, each axis buffer of the drift
    sampler holds exactly [drift_sample_count] samples, and that count
    stays within [0, 29]. *)
Theorem reachable_buffers (s : translator) : reachable s -> buffers_ok (drift s).
Proof.
  induction 1 as [|s e hr IH].
  - split; [intro a; reflexivity | cbn; lia].
  - destruct e as [now r| | |]; cbn [step].
    + destruct (translate_drift s now r) as [E|[_ E]]; rewrite E;
        [exact IH | apply check_for_drift_buffers; exact IH].
    + exact IH.
    + exact IH.
    + split; [intro a; reflexivity | cbn; lia].
Qed.

Lemma translate_performed (s : translator) (now : Q) (r : list Z) :
  drift_check_performed (drift s) = true ->
  drift (fst (fst (translate s now r))) = drift s
  /\ forall info, ~ In (SigDrift info) (snd (translate s now r)).
Proof.
  intro hp. split.
  - destruct (translate_drift s now r) as [E|[E _]]; [exact E|].
    rewrite hp in E. discriminate E.
  - intros info hin.
    destruct (translate s now r) as [[s' out] sigs] eqn:T.
    destruct (translate_drift_signal s s' now r out sigs info T hin) as [E _].
    rewrite hp in E. discriminate E.
Qed.

(** X7: once the drift check has been performed, no sequence of
    [translate], [start_calibration] and [stop_calibration] calls changes
    the drift state or emits a drift event, until the consumer-side
    reset. *)
Theorem drift_frozen_until_reset (s : translator) (es : list event) :
  drift_check_performed (drift s) = true -> no_reset es = true ->
  drift (run s es) = drift s
  /\ forall now r info, ~ In (SigDrift info) (snd (translate (run s es) now r)).
Proof.
  intros hp. revert s hp. induction es as [|e es IH]; intros s hp hn.
  - split; [reflexivity|]. intros now r info. apply translate_performed; exact hp.
  - cbn [no_reset forallb] in hn. apply andb_true_iff in hn. destruct hn as [he hn].
    cbn [run fold_left].
    assert (Hs : drift (step s e) = drift s).
    { destruct e as [now r| | |]; cbn [step].
      - apply translate_performed; exact hp.
      - reflexivity.
      - reflexivity.
      - discriminate he. }
    assert (hp' : drift_check_performed (drift (step s e)) = true) by (rewrite Hs; exact hp).
    destruct (IH (step s e) hp' hn) as [IH1 IH2].
    split; [unfold run in IH1; rewrite IH1; exact Hs | exact IH2].
Qed.


Lemma normalize_invert (calib : calib_entry) (v : Z) :
  normalize_stick calib v true = - normalize_stick calib v false.
Proof. reflexivity. Qed.

Lemma zone_gap (P d : Z) : 1 <= P -> 0 < d ->
  let z := if 32767 * d <? 4000 * P then 0 else Z.min 32767 (32767 * d / P) in
  z = 0 \/ 4000 <= z <= 32767.
Proof.
  intros hP hd. cbv zeta. destruct (Z.ltb_spec (32767 * d) (4000 * P)); [left; reflexivity|].
  right. split; [|apply Z.le_min_l].
  apply Z.min_glb; [lia|]. apply Z.div_le_lower_bound; lia.
Qed.

(** X9: for every calibration entry, byte and inversion flag,
    [_normalize_stick] returns 0 or a value of magnitude in
    [4000, 32767]; in particular it never returns -32768. *)
Theorem normalize_output_range (calib : calib_entry) (v : Z) (invert : bool) :
  let o := normalize_stick calib v invert in
  o = 0 \/ 4000 <= Z.abs o <= 32767.
Proof.
  cbv zeta.
  assert (H : forall o, o = 0 \/ 4000 <= Z.abs o <= 32767 ->
                        - o = 0 \/ 4000 <= Z.abs (- o) <= 32767).
  { intros o [h|h]; [left; lia | right; rewrite Z.abs_opp; exact h]. }
  enough (normalize_stick calib v false = 0
          \/ 4000 <= Z.abs (normalize_stick calib v false) <= 32767) as E.
  { destruct invert; [rewrite normalize_invert; apply H|]; exact E. }
  rewrite normalize_closed. unfold norm_closed.
  set (c := center calib).
  set (N := Z.max (c - cmin calib) 1).
  set (P := Z.max (cmax calib - c) 1).
  destruct (Z.ltb_spec 0 (v - c)).
  - destruct (zone_gap P (v - c) ltac:(lia) ltac:(lia)) as [h|h];
      [left; exact h | right; rewrite Z.abs_eq by lia; exact h].
  - destruct (Z.ltb_spec (v - c) 0); [|left; reflexivity].
    rewrite if_zero_opp. apply H.
    destruct (zone_gap N (- (v - c)) ltac:(lia) ltac:(lia)) as [h|h];
      [left; exact h | right; rewrite Z.abs_eq by lia; exact h].
Qed.

(** X10: [_normalize_stick] maps the entry's center to 0, a recorded
    minimum below the center to -32767 and a recorded maximum above the
    center to 32767. *)
Theorem normalize_calibration_extremes (calib : calib_entry) :
  normalize_stick calib (center calib) false = 0
  /\ (cmin calib < center calib -> normalize_stick calib (cmin calib) false = -32767)
  /\ (center calib < cmax calib -> normalize_stick calib (cmax calib) false = 32767).
Proof.
  rewrite !normalize_closed. unfold norm_closed.
  set (c := center calib). rewrite Z.sub_diag. split; [reflexivity|].
  split; intro h.
  - rewrite (Z.max_l (c - cmin calib) 1) by lia.
    destruct (Z.ltb_spec 0 (cmin calib - c)); [lia|].
    destruct (Z.ltb_spec (cmin calib - c) 0); [|lia].
    replace (- (cmin calib - c)) with (c - cmin calib) by lia.
    destruct (Z.ltb_spec (32767 * (c - cmin calib)) (4000 * (c - cmin calib))); [lia|].
    rewrite Z.div_mul by lia. reflexivity.
  - rewrite (Z.max_l (cmax calib - c) 1) by lia.
    destruct (Z.ltb_spec 0 (cmax calib - c)); [|lia].
    destruct (Z.ltb_spec (32767 * (cmax calib - c)) (4000 * (cmax calib - c))); [lia|].
    rewrite Z.div_mul by lia. reflexivity.
Qed.

(** X11: with a calibration entry as wide below its center as above,
    [_normalize_stick] is odd around the center: [center + k] and
    [center - k] give opposite outputs. *)
Theorem normalize_symmetric (calib : calib_entry) (k : Z) :
  center calib - cmin calib = cmax calib - center calib ->
  normalize_stick calib (center calib + k) false = - normalize_stick calib (center calib - k) false.
Proof.
  intro hs. rewrite !normalize_closed. unfold norm_closed.
  set (c := center calib).
  replace (c + k - c) with k by lia. replace (c - k - c) with (- k) by lia.
  replace (Z.max (cmax calib - c) 1) with (Z.max (c - cmin calib) 1) by (subst c; rewrite hs; reflexivity).
  set (N := Z.max (c - cmin calib) 1).
  destruct (Z.ltb_spec 0 k); destruct (Z.ltb_spec 0 (- k)); try lia.
  - destruct (Z.ltb_spec (- k) 0); [|lia]. rewrite Z.opp_involutive, if_zero_opp.
    rewrite Z.opp_involutive. reflexivity.
  - destruct (Z.ltb_spec k 0); [|lia]. rewrite if_zero_opp. reflexivity.
  - destruct (Z.ltb_spec k 0); [lia|]. destruct (Z.ltb_spec (- k) 0); [lia|]. reflexivity.
Qed.

(** X12: [start_calibration] followed by any reports leaves the
    translator calibrating, with the output report, the battery-check
    time and the whole drift state as they were before. *)
Theorem calibration_session_keeps_state (s : translator) (evs : list (Q * list Z)) :
  let s' := calibration_session s evs in
  is_calibrating s' = true /\ xinput_report s' = xinput_report s
  /\ last_battery_check s' = last_battery_check s /\ drift s' = drift s.
Proof.
  cbv zeta. unfold calibration_session.
  assert (G : forall evs s0, is_calibrating s0 = true ->
    let s1 := fold_left (fun s e => fst (fst (translate s (fst e) (snd e)))) evs s0 in
    is_calibrating s1 = true /\ xinput_report s1 = xinput_report s0
    /\ last_battery_check s1 = last_battery_check s0 /\ drift s1 = drift s0).
  { induction evs0 as [|e es IH]; intros s0 hc; cbn [fold_left].
    - repeat split; assumption.
    - destruct (translate_calibrating_fields s0 (fst e) (snd e) hc) as (h1 & h2 & h3 & h4 & _).
      destruct (IH _ h1) as (g1 & g2 & g3 & g4).
      split; [exact g1|]. rewrite g2, g3, g4, h2, h3, h4. repeat split. }
  exact (G evs (fst (start_calibration s)) eq_refl).
Qed.

(** X13: after [start_calibration], any reports and [stop_calibration],
    the finished signal carries the table in place, each axis holds the
    min/max of the sentinel and the accepted samples with center 128,
    and the next full report is normalised with that table. *)
Theorem calibrate_stop_translate (s : translator) (evs : list (Q * list Z)) (now : Q) (r : list Z) :
  (32 <= length r)%nat ->
  let '(s2, sigs) := stop_calibration (calibration_session s evs) in
  let cal a := mk_calib (fold_left Z.min (accepted_samples evs a) 255)
                        (fold_left Z.max (accepted_samples evs a) 0) 128 in
  is_calibrating s2 = false
  /\ sigs = [SigCalibrationFinished (calibration_data s2)]
  /\ (forall a, calibration_data s2 a = cal a)
  /\ exists x, snd (fst (translate s2 now r)) = Some x
     /\ sThumbLX x = normalize_stick (cal LX) (byte_at r 1) false
     /\ sThumbLY x = - normalize_stick (cal LY) (byte_at r 2) false
     /\ sThumbRX x = normalize_stick (cal RX) (byte_at r 3) false
     /\ sThumbRY x = - normalize_stick (cal RY) (byte_at r 4) false.
Proof.
  intro hl. cbv zeta. unfold stop_calibration.
  destruct (calibration_fold evs (fst (start_calibration s)) eq_refl) as [_ ha].
  fold (calibration_session s evs) in ha.
  cbn [fst calibration_data start_calibration set_calibration sentinel_table
       sentinel_entry cmin cmax center] in ha.
  split; [reflexivity|]. split; [reflexivity|].
  split; [intro a; cbn [set_calibrating calibration_data]; apply ha|].
  rewrite (translate_full_report (set_calibrating (calibration_session s evs) false)
             now r eq_refl hl).
  eexists. split; [reflexivity|]. cbn [set_calibrating calibration_data sThumbLX sThumbLY sThumbRX sThumbRY].
  rewrite !ha. repeat split.
Qed.

(** X1: the [wButtons] word [translate] builds from report bytes 5 and 6
    always fits in 16 bits; Square, Cross, Circle, Triangle (byte 5 bits
    4 to 7) set X, A, B, Y; the compass code sets the D-pad bits; L1, R1,
    Share, Options, L3, R3 (byte 6 bits 0, 1, 4, 5, 6, 7) set the
    shoulder, Back, Start and thumb bits; bits 0x0400 and 0x0800 are
    never set. *)
Theorem decode_buttons_layout (b5 b6 : Z) :
  let w := decode_buttons b5 b6 in
  let code := Z.land b5 15 in
  0 <= w < 65536
  /\ bit_set w 4096 = bit_set b5 32 /\ bit_set w 8192 = bit_set b5 64
  /\ bit_set w 16384 = bit_set b5 16 /\ bit_set w 32768 = bit_set b5 128
  /\ bit_set w 1 = (code =? 0) || (code =? 1) || (code =? 7)
  /\ bit_set w 2 = (code =? 3) || (code =? 4) || (code =? 5)
  /\ bit_set w 4 = (code =? 5) || (code =? 6) || (code =? 7)
  /\ bit_set w 8 = (code =? 1) || (code =? 2) || (code =? 3)
  /\ bit_set w 256 = bit_set b6 1 /\ bit_set w 512 = bit_set b6 2
  /\ bit_set w 16 = bit_set b6 32 /\ bit_set w 32 = bit_set b6 16
  /\ bit_set w 64 = bit_set b6 64 /\ bit_set w 128 = bit_set b6 128
  /\ bit_set w 1024 = false /\ bit_set w 2048 = false.
Proof.
  cbv zeta. split; [apply decode_buttons_range | apply decode_buttons_bits].
Qed.

(** X14: in every reachable translator, every axis of the calibration
    table has center 128. *)
Theorem reachable_center (s : translator) :
  reachable s -> forall a, center (calibration_data s a) = 128.
Proof.
  induction 1 as [|s e hr IH]; intro a.
  - reflexivity.
  - destruct e as [now r| | |]; cbn [step].
    + unfold translate.
      destruct (length r <? 32)%nat; [apply IH|].
      destruct (is_calibrating s).
      * unfold calibrate. destruct (length r <? 5)%nat; [apply IH|].
        destruct (negb _); [destruct (check_for_drift _ _ _)|]; cbn;
          destruct a; apply IH.
      * destruct (Qltb 2 (now - last_battery_check s));
          [destruct (extract_battery_info r)|];
          cbn [drift_detection_enabled drift];
          destruct (drift_detection_enabled s && negb (drift_check_performed (drift s)));
          try destruct (check_for_drift (drift s) now r); apply IH.
    + reflexivity.
    + apply IH.
    + apply IH.
Qed.

Lemma process_input_end_to_end_witness :
  pressed (snd (fst (process_input true translator_init vpad_init 1
                       (report 128 128 128 128 35 33 0 0 0 0))))
  = ds4_pressed 35 33
  /\ ds4_pressed 35 33 = [XUSB_GAMEPAD_A; XUSB_GAMEPAD_DPAD_DOWN; XUSB_GAMEPAD_DPAD_RIGHT;
                          XUSB_GAMEPAD_LEFT_SHOULDER; XUSB_GAMEPAD_START].
Proof.
  split; [|reflexivity].
  exact (proj1 (process_input_end_to_end translator_init vpad_init 1
                  (report 128 128 128 128 35 33 0 0 0 0) eq_refl ltac:(vm_compute; lia))).
Defined.


Lemma battery_check_throttled_witness :
  filter is_battery_signal
    (snd (translate (fst (fst (translate translator_init 3 (report 128 128 128 128 8 0 0 0 0 27))))
                    4 (report 128 128 128 128 8 0 0 0 0 27))) = [].
Proof.
  pose proof (battery_check_throttled translator_init 3 4
                (report 128 128 128 128 8 0 0 0 0 27) (report 128 128 128 128 8 0 0 0 0 27)) as H.
  destruct (translate translator_init 3 (report 128 128 128 128 8 0 0 0 0 27))
    as [[s1 out1] sigs1].
  cbv zeta in H. cbn [fst].
  apply (proj2 H).
  - vm_compute. reflexivity.
  - vm_compute. intro h; discriminate h.
Defined.

Lemma reachable_buffers_witness :
  buffers_ok (drift (run translator_init (sample_ticks 1 [128; 130; 125]))).
Proof.
  exact (reachable_buffers _ (run_reachable (sample_ticks 1 [128; 130; 125]) translator_init
                                reach_init)).
Defined.

Lemma drift_frozen_until_reset_witness :
  drift (run (set_drift translator_init (mk_drift no_samples 0 [] 0 true))
             [EvTranslate 1 released_report; EvStartCalibration; EvStopCalibration])
  = mk_drift no_samples 0 [] 0 true.
Proof.
  exact (proj1 (drift_frozen_until_reset (set_drift translator_init (mk_drift no_samples 0 [] 0 true))
                  [EvTranslate 1 released_report; EvStartCalibration; EvStopCalibration]
                  eq_refl eq_refl)).
Defined.


Lemma normalize_calibration_extremes_witness :
  normalize_stick (mk_calib 20 230 128) 20 false = -32767.
Proof.
  exact (proj1 (proj2 (normalize_calibration_extremes (mk_calib 20 230 128))) ltac:(cbn; lia)).
Defined.

Lemma normalize_symmetric_witness :
  normalize_stick (mk_calib 28 228 128) 178 false = - normalize_stick (mk_calib 28 228 128) 78 false.
Proof. exact (normalize_symmetric (mk_calib 28 228 128) 50 eq_refl). Defined.

Lemma calibrate_stop_translate_witness :
  is_calibrating (fst (stop_calibration (calibration_session translator_init
     [(1%Q, report 20 128 128 128 8 0 0 0 0 0); (2%Q, report 230 128 128 128 8 0 0 0 0 0)])))
  = false.
Proof.
  pose proof (calibrate_stop_translate translator_init
     [(1%Q, report 20 128 128 128 8 0 0 0 0 0); (2%Q, report 230 128 128 128 8 0 0 0 0 0)]
     3 (lx_report 230) ltac:(vm_compute; lia)) as H.
  destruct (stop_calibration (calibration_session translator_init
     [(1%Q, report 20 128 128 128 8 0 0 0 0 0); (2%Q, report 230 128 128 128 8 0 0 0 0 0)]))
    as [s2 sigs].
  exact (proj1 H).
Defined.

Lemma reachable_center_witness :
  center (calibration_data (run translator_init [EvStartCalibration; EvTranslate 1 (lx_report 20)]) LX)
  = 128.
Proof.
  exact (reachable_center _ (run_reachable [EvStartCalibration; EvTranslate 1 (lx_report 20)]
                               translator_init reach_init) LX).
Defined.
